(** * The specification aggregator of [scripts/generate-spec-txt.ts]

    A shallow embedding of the script that concatenates the pages of the
    latest specification version into [mcp-spec.txt], and the properties of
    it that the design document states.

    JavaScript strings are sequences of UTF-16 code units; a code unit is a
    number of type [N].  Exceptions are values of a result type, the file
    system is a function from paths to read outcomes, and the console is a
    list of events. *)

From Stdlib Require Import List NArith Ascii String Bool Arith Lia.
From Stdlib Require Import Sorting.Sorted.
Import ListNotations.

(* ================================================================== *)
(** ** JavaScript strings *)

Module JS.

Definition jsstring : Type := list N.

(** A literal: the code units of an ASCII string. *)
Definition js (s : string) : jsstring :=
  List.map N_of_ascii (list_ascii_of_string s).

Definition LF : N := 10.
Definition DASH : N := 45.
Definition DOT : N := 46.
Definition SLASH : N := 47.

(** [a === b] on strings. *)
Fixpoint str_eqb (a b : jsstring) : bool :=
  match a, b with
  | [], [] => true
  | x :: a', y :: b' => N.eqb x y && str_eqb a' b'
  | _, _ => false
  end.

(** [s.startsWith(p)]. *)
Fixpoint startsWith (p s : jsstring) : bool :=
  match p, s with
  | [], _ => true
  | _ :: _, [] => false
  | x :: p', y :: s' => N.eqb x y && startsWith p' s'
  end.

(** [s.includes(p)]: [p] occurs somewhere in [s]. *)
Fixpoint includes (p s : jsstring) : bool :=
  startsWith p s ||
  match s with
  | [] => false
  | _ :: s' => includes p s'
  end.

(** [s.slice(n)] for a non-negative [n]. *)
Definition slice (n : nat) (s : jsstring) : jsstring := skipn n s.

(** What follows the leftmost occurrence of [p] in [s], if there is one. *)
Fixpoint after_first (p s : jsstring) : option jsstring :=
  if startsWith p s then Some (skipn (List.length p) s)
  else match s with
       | [] => None
       | _ :: s' => after_first p s'
       end.

(** [s.replace(p, '')] with a string pattern: the leftmost occurrence of
    [p] is removed, the rest is kept. *)
Fixpoint remove_first (p s : jsstring) : jsstring :=
  if startsWith p s then skipn (List.length p) s
  else match s with
       | [] => []
       | c :: s' => c :: remove_first p s'
       end.

(** [l.join(sep)]. *)
Fixpoint join (sep : jsstring) (l : list jsstring) : jsstring :=
  match l with
  | [] => []
  | x :: rest =>
      match rest with
      | [] => x
      | _ :: _ => x ++ sep ++ join sep rest
      end
  end.

(** The code units that [String.prototype.trim] removes: WhiteSpace and
    LineTerminator of ECMAScript. *)
Definition isWhiteSpace (c : N) : bool :=
  (N.leb 9 c && N.leb c 13) || N.eqb c 32 || N.eqb c 160 ||
  N.eqb c 5760 || (N.leb 8192 c && N.leb c 8202) ||
  N.eqb c 8232 || N.eqb c 8233 || N.eqb c 8239 || N.eqb c 8287 ||
  N.eqb c 12288 || N.eqb c 65279.

Fixpoint trimStart (s : jsstring) : jsstring :=
  match s with
  | [] => []
  | c :: s' => if isWhiteSpace c then trimStart s' else s
  end.

Definition trimEnd (s : jsstring) : jsstring := rev (trimStart (rev s)).

(** [s.trim()]. *)
Definition trim (s : jsstring) : jsstring := trimEnd (trimStart s).

(** [s.toLowerCase()].  The letters A to Z are mapped to a to z.  The only
    use in the script compares the result with the word [specification]:
    no text with a code unit outside ASCII lower-cases to that word, so
    leaving the other code units alone does not change the comparison. *)
Definition lowerUnit (c : N) : N :=
  if N.leb 65 c && N.leb c 90 then (c + 32)%N else c.

Definition toLowerCase (s : jsstring) : jsstring := List.map lowerUnit s.

(** The default order of [Array.prototype.sort] on strings: code units
    compared from the left, a proper prefix first. *)
Fixpoint str_leb (a b : jsstring) : bool :=
  match a, b with
  | [], _ => true
  | _ :: _, [] => false
  | x :: a', y :: b' =>
      if N.ltb x y then true
      else if N.ltb y x then false
      else str_leb a' b'
  end.

Definition leq (a b : jsstring) : Prop := str_leb a b = true.

Fixpoint insert_sorted (x : jsstring) (l : list jsstring) : list jsstring :=
  match l with
  | [] => [x]
  | y :: l' => if str_leb x y then x :: l else y :: insert_sorted x l'
  end.

(** [l.sort()] on an array of strings. *)
Fixpoint sort (l : list jsstring) : list jsstring :=
  match l with
  | [] => []
  | x :: l' => insert_sorted x (sort l')
  end.

(** [l.filter(Boolean)] on an array of strings and nulls: [null] and the
    empty string are dropped. *)
Fixpoint filterBoolean (l : list (option jsstring)) : list jsstring :=
  match l with
  | [] => []
  | Some (c :: s) :: l' => (c :: s) :: filterBoolean l'
  | _ :: l' => filterBoolean l'
  end.

End JS.
Import JS.

(* ================================================================== *)
(** ** [path.join] of Node (POSIX flavour)

    The script runs on Node's [path] module, which is not part of the
    repository.  The definitions below follow its documented behaviour:
    the non-empty arguments are joined with a slash and the result is
    normalised ([.] and empty segments disappear, [..] removes the segment
    before it). *)

Module Path.

(** [s.split('/')]. *)
Fixpoint split_slash (cur : jsstring) (s : jsstring) : list jsstring :=
  match s with
  | [] => [rev cur]
  | c :: s' =>
      if N.eqb c SLASH then rev cur :: split_slash [] s'
      else split_slash (c :: cur) s'
  end.

(** One segment against the stack of segments kept so far (top first). *)
Definition push_segment (allowAboveRoot : bool)
    (stack : list jsstring) (seg : jsstring) : list jsstring :=
  if str_eqb seg [] || str_eqb seg [DOT] then stack
  else if str_eqb seg [DOT; DOT] then
    match stack with
    | top :: below =>
        if str_eqb top [DOT; DOT]
        then (if allowAboveRoot then seg :: stack else stack)
        else below
    | [] => if allowAboveRoot then [seg] else []
    end
  else seg :: stack.

Definition normalizeString (allowAboveRoot : bool) (p : jsstring) : jsstring :=
  join [SLASH]
    (rev (fold_left (push_segment allowAboveRoot) (split_slash [] p) [])).

Definition normalize (p : jsstring) : jsstring :=
  match p with
  | [] => [DOT]
  | _ :: _ =>
      let isAbsolute := startsWith [SLASH] p in
      let trailingSeparator := startsWith [SLASH] (rev p) in
      let q := normalizeString (negb isAbsolute) p in
      match q with
      | [] =>
          if isAbsolute then [SLASH]
          else if trailingSeparator then [DOT; SLASH] else [DOT]
      | _ :: _ =>
          let q' := if trailingSeparator then q ++ [SLASH] else q in
          if isAbsolute then SLASH :: q' else q'
      end
  end.

(** [path.join(a, b)]. *)
Definition join2 (a b : jsstring) : jsstring :=
  match a, b with
  | [], [] => [DOT]
  | [], _ :: _ => normalize b
  | _ :: _, [] => normalize a
  | _ :: _, _ :: _ => normalize (a ++ SLASH :: b)
  end.

End Path.

(* ================================================================== *)
(** ** The navigation configuration ([docs.json]) *)

(** [string | NavigationItem]: a page reference or a nested group. *)
#[warnings="-register-all"]
Inductive NavigationItem : Type :=
| Page (item : jsstring)
| Nested (group : option jsstring) (pages : list NavigationItem).

Record Group : Type := mkGroup {
  group : jsstring;
  pages : list NavigationItem
}.

Record Tab : Type := mkTab {
  tab : jsstring;
  groups : list Group
}.

(** [DocsConfig]: only [navigation.tabs] is read. *)
Record DocsConfig : Type := mkDocsConfig {
  tabs : list Tab
}.

(* ================================================================== *)
(** ** [extractPagePaths] *)

(** The path pushed for a string item. *)
Definition fullPath (basePath item : jsstring) : jsstring :=
  if startsWith (js "/") item
  then js "../docs/specification" ++ slice 1 item
  else js "../docs/" ++ Path.join2 basePath item.

(** The loop over [items] appends to [paths]; a nested item appends the
    paths of its own [pages]. *)
Fixpoint extractItem (basePath : jsstring) (it : NavigationItem)
    : list jsstring :=
  match it with
  | Page item => [fullPath basePath item]
  | Nested _ ps =>
      fold_left (fun paths i => paths ++ extractItem basePath i) ps []
  end.

Definition extractPagePaths (items : list NavigationItem)
    (basePath : jsstring) : list jsstring :=
  fold_left (fun paths i => paths ++ extractItem basePath i) items [].

(** The leaf references of a page tree in depth-first pre-order, as the
    design document describes the traversal. *)
Fixpoint preorder_leaves (it : NavigationItem) : list jsstring :=
  match it with
  | Page item => [item]
  | Nested _ ps => flat_map preorder_leaves ps
  end.

Definition preorder (items : list NavigationItem) : list jsstring :=
  flat_map preorder_leaves items.

(* ================================================================== *)
(** ** [cleanMdxContent] *)

Definition frontmatterFence : jsstring := [DASH; DASH; DASH].

(** The greedy tail [\n*] of the frontmatter expression. *)
Fixpoint skipNewlines (s : jsstring) : jsstring :=
  match s with
  | [] => []
  | c :: s' => if N.eqb c LF then skipNewlines s' else s
  end.

(** What is left of [content] behind a match of [/^---[\s\S]*?---\n*/]:
    the text starts with three dashes, the lazy middle part stops at the
    leftmost later run of three dashes, and the newlines behind it are
    taken too.  [None] when the expression does not match. *)
Definition frontmatterMatch (content : jsstring) : option jsstring :=
  if startsWith frontmatterFence content
  then option_map skipNewlines
         (after_first frontmatterFence (slice 3 content))
  else None.

(** [content.replace(frontmatterRegex, '')]. *)
Definition removeFrontmatter (content : jsstring) : jsstring :=
  match frontmatterMatch content with
  | Some rest => rest
  | None => content
  end.

Definition cleanMdxContent (content : jsstring) : jsstring :=
  let cleanContent := removeFrontmatter content in
  trim cleanContent.

(* ================================================================== *)
(** ** Selecting the latest version *)

Inductive Error : Type :=
| SpecTabNotFound
| NoVersionedGroups
| LatestGroupNotFound.

Definition message (e : Error) : jsstring :=
  match e with
  | SpecTabNotFound => js "Specification tab not found in docs.json"
  | NoVersionedGroups => js "No versioned specification groups found"
  | LatestGroupNotFound => js "Latest specification group not found"
  end.

(** The outcome of a function that may throw. *)
Inductive Result (A : Type) : Type :=
| Ok (a : A)
| Throw (e : Error).
Arguments Ok {A} a.
Arguments Throw {A} e.

(** One statement after another inside a [try]. *)
Definition bind {A B : Type} (r : Result A) (k : A -> Result B) : Result B :=
  match r with
  | Ok a => k a
  | Throw e => Throw e
  end.

Notation "x <- r ;; k" := (bind r (fun x => k))
  (at level 61, r at next level, right associativity).

Definition isDigit (c : N) : bool := N.leb 48 c && N.leb c 57.

(** A match of [\d{4}-\d{2}-\d{2}] at the very start of [s]. *)
Definition dateAt (s : jsstring) : option jsstring :=
  match s with
  | y1 :: y2 :: y3 :: y4 :: h1 :: m1 :: m2 :: h2 :: d1 :: d2 :: _ =>
      if isDigit y1 && isDigit y2 && isDigit y3 && isDigit y4 &&
         N.eqb h1 DASH && isDigit m1 && isDigit m2 &&
         N.eqb h2 DASH && isDigit d1 && isDigit d2
      then Some [y1; y2; y3; y4; h1; m1; m2; h2; d1; d2]
      else None
  | _ => None
  end.

(** [s.match(/(\d{4}-\d{2}-\d{2})/)]: the first group of the leftmost
    match, [None] for [null]. *)
Fixpoint matchDate (s : jsstring) : option jsstring :=
  match dateAt s with
  | Some d => Some d
  | None =>
      match s with
      | [] => None
      | _ :: s' => matchDate s'
      end
  end.

Definition isSpecificationTab (t : Tab) : bool :=
  str_eqb (toLowerCase (tab t)) (js "specification").

(** The test both functions apply to a group label. *)
Definition isMarked (label : jsstring) : bool :=
  includes (js "Latest") label || includes (js "2025-03-26") label.

(** The first loop of [findLatestSpecVersion]: a marked group returns its
    date; a marked group without a date lets the loop go on. *)
Fixpoint markedDate (gs : list Group) : option jsstring :=
  match gs with
  | [] => None
  | g :: gs' =>
      if isMarked (group g) then
        match matchDate (group g) with
        | Some d => Some d
        | None => markedDate gs'
        end
      else markedDate gs'
  end.

(** The fallback of [findLatestSpecVersion]: all dates, sorted, reversed. *)
Definition dateGroups (gs : list Group) : list jsstring :=
  rev (sort (filterBoolean (List.map (fun g => matchDate (group g)) gs))).

Definition findLatestSpecVersion (docsConfig : DocsConfig) : Result jsstring :=
  match find isSpecificationTab (tabs docsConfig) with
  | None => Throw SpecTabNotFound
  | Some specTab =>
      match markedDate (groups specTab) with
      | Some d => Ok d
      | None =>
          match dateGroups (groups specTab) with
          | d :: _ => Ok d
          | [] => Throw NoVersionedGroups
          end
      end
  end.

(** The loop of [getLatestSpecNavigation]: the first marked group. *)
Fixpoint latestGroup (gs : list Group) : option Group :=
  match gs with
  | [] => None
  | g :: gs' => if isMarked (group g) then Some g else latestGroup gs'
  end.

Definition getLatestSpecNavigation (docsConfig : DocsConfig)
    : Result (list NavigationItem) :=
  match find isSpecificationTab (tabs docsConfig) with
  | None => Throw SpecTabNotFound
  | Some specTab =>
      match latestGroup (groups specTab) with
      | None => Throw LatestGroupNotFound
      | Some g => Ok (pages g)
      end
  end.

(* ================================================================== *)
(** ** The file system and the console *)

(** What [fs.readFile(p, 'utf-8')] does: it resolves with the text of the
    file, or rejects because there is no such file, or rejects for another
    reason (no permission, a directory, a device error). *)
Inductive ReadOutcome : Type :=
| Contents (text : jsstring)
| NoSuchFile
| ReadFailure.

Definition FileSystem : Type := jsstring -> ReadOutcome.

(** The path exists, readable or not. *)
Definition existsOn (fs : FileSystem) (p : jsstring) : bool :=
  match fs p with
  | NoSuchFile => false
  | _ => true
  end.

(** [console.log], [console.warn], [console.error], by rising severity. *)
Inductive Level : Type := LogLevel | WarnLevel | ErrorLevel.

Definition rank (l : Level) : nat :=
  match l with
  | LogLevel => 0
  | WarnLevel => 1
  | ErrorLevel => 2
  end.

(** The messages of the script, with the values they interpolate. *)
Inductive Message : Type :=
| UsingVersion (latestVersion : jsstring)
| FoundNavigation (topLevelItems : nat)
| FoundPages (n : nat)
| Processed (usedPath : jsstring)
| CouldNotFindFile (pagePath : jsstring)
| Concatenated (processedCount : nat)
| BasicWritten (outputPath : jsstring)
| BasicSize (characters : nat)
| FoundSchema (file : jsstring) (version : jsstring)
| CouldNotFindSchema (file : jsstring) (version : jsstring)
| FullWritten (outputPath : jsstring)
| FullSize (characters : nat)
| ErrorMessage (text : jsstring).

Definition Event : Type := (Level * Message)%type.

(** A string in a condition: the empty string counts as false. *)
Definition truthy (s : jsstring) : bool :=
  match s with
  | [] => false
  | _ :: _ => true
  end.

(* ================================================================== *)
(** ** [concatenateSpec] *)

Definition possiblePaths (pagePath : jsstring) : list jsstring :=
  [pagePath ++ js ".mdx"; pagePath ++ js ".md"; pagePath].

(** The loop over [possiblePaths]: the first read that does not throw sets
    [content] and [usedPath] and leaves the loop; a read that throws, for
    whatever reason, moves on to the next path. *)
Fixpoint firstRead (fs : FileSystem) (candidates : list jsstring)
    : option (jsstring * jsstring) :=
  match candidates with
  | [] => None
  | possiblePath :: rest =>
      match fs possiblePath with
      | Contents content => Some (content, possiblePath)
      | NoSuchFile => firstRead fs rest
      | ReadFailure => firstRead fs rest
      end
  end.

(** The variables the page loop updates. *)
Record Progress : Type := mkProgress {
  concatenatedContent : list jsstring;
  processedCount : nat;
  console : list Event
}.

Definition pageTitle (latestVersion pagePath : jsstring) : jsstring :=
  remove_first (js "specification/" ++ latestVersion ++ js "/") pagePath.

Definition section (latestVersion pagePath cleanContent : jsstring)
    : jsstring :=
  js "# " ++ pageTitle latestVersion pagePath ++ [LF; LF] ++ cleanContent.

Definition couldNotFind (st : Progress) (pagePath : jsstring) : Progress :=
  mkProgress (concatenatedContent st) (processedCount st)
    (console st ++ [(WarnLevel, CouldNotFindFile pagePath)]).

(** One turn of the loop over [pagePaths]. *)
Definition processPage (fs : FileSystem) (latestVersion : jsstring)
    (st : Progress) (pagePath : jsstring) : Progress :=
  match firstRead fs (possiblePaths pagePath) with
  | Some (content, usedPath) =>
      if truthy content && truthy usedPath then
        let cleanContent := cleanMdxContent content in
        if truthy cleanContent then
          mkProgress
            (concatenatedContent st ++
               [section latestVersion pagePath cleanContent])
            (S (processedCount st))
            (console st ++ [(LogLevel, Processed usedPath)])
        else st
      else couldNotFind st pagePath
  | None => couldNotFind st pagePath
  end.

Definition separator : jsstring := [LF; LF] ++ js "---" ++ [LF; LF].

(** One [try] of [readSchemaFiles]: the text if the read succeeds, and the
    message put on the console. *)
Definition readSchema (fs : FileSystem) (schemaDir version file : jsstring)
    : option jsstring * Event :=
  match fs (Path.join2 schemaDir file) with
  | Contents text => (Some text, (LogLevel, FoundSchema file version))
  | NoSuchFile => (None, (WarnLevel, CouldNotFindSchema file version))
  | ReadFailure => (None, (WarnLevel, CouldNotFindSchema file version))
  end.

Record SchemaFiles : Type := mkSchemaFiles {
  ts : option jsstring;
  json : option jsstring
}.

(** [readSchemaFiles(version)], with what it puts on the console. *)
Definition readSchemaFiles (fs : FileSystem) (version : jsstring)
    : SchemaFiles * list Event :=
  let schemaDir := js "../schema/" ++ version in
  let tsRead := readSchema fs schemaDir version (js "schema.ts") in
  let jsonRead := readSchema fs schemaDir version (js "schema.json") in
  (mkSchemaFiles (fst tsRead) (fst jsonRead), [snd tsRead; snd jsonRead]).

(** A section of the full artifact; nothing for [null] or an empty text. *)
Definition fenced (title lang : jsstring) (text : option jsstring)
    : list jsstring :=
  match text with
  | Some (c :: t) =>
      [js "# " ++ title ++ [LF; LF] ++ js "```" ++ lang ++ [LF] ++
       (c :: t) ++ [LF] ++ js "```"]
  | _ => []
  end.

(** What a run leaves behind: the exit status of the process, the files
    written (in order) and the console. *)
Record Outcome : Type := mkOutcome {
  exitStatus : N;
  written : list (jsstring * jsstring);
  events : list Event
}.

(** The body of the [try] of [concatenateSpec] on the path where
    [docs.json] has been read and parsed to [docsConfig] and each
    [fs.writeFile] resolves.  The whole function, with the rejections of
    these calls, is [concatenateSpecIn] below. *)
Definition concatenateSpecBody (includeFull : bool) (docsConfig : DocsConfig)
    (fs : FileSystem) : Result Outcome :=
  latestVersion <- findLatestSpecVersion docsConfig ;;
  specNavigation <- getLatestSpecNavigation docsConfig ;;
  let pagePaths := extractPagePaths specNavigation [] in
  let st0 :=
    mkProgress [] 0
      [(LogLevel, UsingVersion latestVersion);
       (LogLevel, FoundNavigation (List.length specNavigation));
       (LogLevel, FoundPages (List.length pagePaths))] in
  let st := fold_left (processPage fs latestVersion) pagePaths st0 in
  let baseContent := join separator (concatenatedContent st) in
  let baseOutputPath := js "./mcp-spec.txt" in
  let baseEvents :=
    console st ++
    [(LogLevel, Concatenated (processedCount st));
     (LogLevel, BasicWritten baseOutputPath);
     (LogLevel, BasicSize (List.length baseContent))] in
  if includeFull then
    let schemaFiles := readSchemaFiles fs latestVersion in
    let fullOutputContent :=
      join separator
        ([baseContent] ++
         fenced (js "schema.ts") (js "typescript") (ts (fst schemaFiles)) ++
         fenced (js "schema.json") (js "json") (json (fst schemaFiles))) in
    let fullOutputPath := js "./mcp-spec-full.txt" in
    Ok (mkOutcome 0
          [(baseOutputPath, baseContent);
           (fullOutputPath, fullOutputContent)]
          (baseEvents ++ snd schemaFiles ++
           [(LogLevel, FullWritten fullOutputPath);
            (LogLevel, FullSize (List.length fullOutputContent))]))
  else
    Ok (mkOutcome 0 [(baseOutputPath, baseContent)] baseEvents).

(** The [catch] of [concatenateSpec]: the message goes to [console.error]
    and the process exits with status 1. *)
Definition abort (e : Error) : Outcome :=
  mkOutcome 1 [] [(ErrorLevel, ErrorMessage (message e))].

(** [concatenateSpec(includeFull)] on that path. *)
Definition concatenateSpec (includeFull : bool) (docsConfig : DocsConfig)
    (fs : FileSystem) : Outcome :=
  match concatenateSpecBody includeFull docsConfig fs with
  | Ok o => o
  | Throw e => abort e
  end.

(** The primary artifact of a run: the text written to [./mcp-spec.txt]. *)
Definition primaryArtifact (o : Outcome) : option jsstring :=
  match written o with
  | (_, text) :: _ => Some text
  | [] => None
  end.

(** The sections a page list contributes, page by page: what the design
    document calls the resolved pages, in navigation order. *)
Definition sectionOf (fs : FileSystem) (latestVersion pagePath : jsstring)
    : list jsstring :=
  match firstRead fs (possiblePaths pagePath) with
  | Some (content, usedPath) =>
      if truthy content && truthy usedPath && truthy (cleanMdxContent content)
      then [section latestVersion pagePath (cleanMdxContent content)]
      else []
  | None => []
  end.

(** What one page adds to the console. *)
Definition pageEvents (fs : FileSystem) (pagePath : jsstring) : list Event :=
  match firstRead fs (possiblePaths pagePath) with
  | Some (content, usedPath) =>
      if truthy content && truthy usedPath then
        if truthy (cleanMdxContent content)
        then [(LogLevel, Processed usedPath)]
        else []
      else [(WarnLevel, CouldNotFindFile pagePath)]
  | None => [(WarnLevel, CouldNotFindFile pagePath)]
  end.

(* ================================================================== *)
(** ** The statements of the design document, in its own words *)

(** A rooted reference joined onto the specification directory: the
    directory, a path separator, the reference without its root marker. *)
Definition ontoSpecificationRoot (rest : jsstring) : jsstring :=
  js "../docs/specification" ++ [SLASH] ++ rest.

(** The first candidate that exists on the file system. *)
Definition firstExisting (fs : FileSystem) (candidates : list jsstring)
    : option jsstring :=
  find (existsOn fs) candidates.

(** No read of the path succeeds. *)
Definition unreadable (fs : FileSystem) (c : jsstring) : Prop :=
  forall t, fs c <> Contents t.

(** A file system on which every failing read is a missing file. *)
Definition asMissing (fs : FileSystem) : FileSystem :=
  fun p =>
    match fs p with
    | Contents text => Contents text
    | NoSuchFile => NoSuchFile
    | ReadFailure => NoSuchFile
    end.

(** A document: a frontmatter block (fence, metadata, fence, newline) and
    a body. *)
Definition document (meta body : jsstring) : jsstring :=
  frontmatterFence ++ meta ++ frontmatterFence ++ [LF] ++ body.

(** The metadata of a frontmatter block: the closing fence is the first run
    of three dashes behind the opening one. *)
Definition isMetadata (meta : jsstring) : Prop :=
  after_first frontmatterFence (meta ++ frontmatterFence) = Some [].

(** The run fails for its configuration. *)
Definition missingTab (docsConfig : DocsConfig) : Prop :=
  find isSpecificationTab (tabs docsConfig) = None.

(* ================================================================== *)
(** ** The whole of [concatenateSpec] *)

(** What reading and parsing [../docs/docs.json] gives: the configuration,
    or the message of the error that [fs.readFile] or [JSON.parse]
    throws. *)
Inductive ConfigOutcome : Type :=
| Loaded (docsConfig : DocsConfig)
| LoadFailed (errorMessage : jsstring).

(** What a run finds around it: the configuration file, the files it may
    read, and for each path whether [fs.writeFile] resolves ([None]) or
    rejects (the message of the error). *)
Record Environment : Type := mkEnvironment {
  docsJson : ConfigOutcome;
  files : FileSystem;
  writeError : jsstring -> option jsstring
}.

(** What the loop over the pages has put on the console when it ends. *)
Definition loopEvents (fs : FileSystem) (latestVersion : jsstring)
    (specNavigation : list NavigationItem) : list Event :=
  [(LogLevel, UsingVersion latestVersion);
   (LogLevel, FoundNavigation (List.length specNavigation));
   (LogLevel,
    FoundPages (List.length (extractPagePaths specNavigation [])))] ++
  flat_map (pageEvents fs) (extractPagePaths specNavigation []).

(** [concatenateSpec(includeFull)]: every statement of the [try], and the
    [catch] for whatever one of them throws.  What was written and logged
    before the error stays written and logged. *)
Definition concatenateSpecIn (includeFull : bool) (env : Environment)
    : Outcome :=
  match docsJson env with
  | LoadFailed msg => mkOutcome 1 [] [(ErrorLevel, ErrorMessage msg)]
  | Loaded docsConfig =>
  match findLatestSpecVersion docsConfig with
  | Throw e => abort e
  | Ok latestVersion =>
  match getLatestSpecNavigation docsConfig with
  | Throw e => abort e
  | Ok specNavigation =>
      let fs := files env in
      let pagePaths := extractPagePaths specNavigation [] in
      let st0 :=
        mkProgress [] 0
          [(LogLevel, UsingVersion latestVersion);
           (LogLevel, FoundNavigation (List.length specNavigation));
           (LogLevel, FoundPages (List.length pagePaths))] in
      let st := fold_left (processPage fs latestVersion) pagePaths st0 in
      let baseContent := join separator (concatenatedContent st) in
      let baseOutputPath := js "./mcp-spec.txt" in
      match writeError env baseOutputPath with
      | Some msg =>
          mkOutcome 1 [] (console st ++ [(ErrorLevel, ErrorMessage msg)])
      | None =>
          let baseEvents :=
            console st ++
            [(LogLevel, Concatenated (processedCount st));
             (LogLevel, BasicWritten baseOutputPath);
             (LogLevel, BasicSize (List.length baseContent))] in
          if includeFull then
            let schemaFiles := readSchemaFiles fs latestVersion in
            let fullOutputContent :=
              join separator
                ([baseContent] ++
                 fenced (js "schema.ts") (js "typescript")
                   (ts (fst schemaFiles)) ++
                 fenced (js "schema.json") (js "json")
                   (json (fst schemaFiles))) in
            let fullOutputPath := js "./mcp-spec-full.txt" in
            match writeError env fullOutputPath with
            | Some msg =>
                mkOutcome 1 [(baseOutputPath, baseContent)]
                  (baseEvents ++ snd schemaFiles ++
                   [(ErrorLevel, ErrorMessage msg)])
            | None =>
                mkOutcome 0
                  [(baseOutputPath, baseContent);
                   (fullOutputPath, fullOutputContent)]
                  (baseEvents ++ snd schemaFiles ++
                   [(LogLevel, FullWritten fullOutputPath);
                    (LogLevel, FullSize (List.length fullOutputContent))])
            end
          else
            mkOutcome 0 [(baseOutputPath, baseContent)] baseEvents
      end
  end
  end
  end.

(** An output file of the run cannot be written. *)
Definition outputUnwritable (includeFull : bool) (env : Environment) : Prop :=
  writeError env (js "./mcp-spec.txt") <> None \/
  (includeFull = true /\ writeError env (js "./mcp-spec-full.txt") <> None).

(** No version can be resolved: the Specification tab is there and no
    label of its groups carries a date token. *)
Definition noDatedGroup (docsConfig : DocsConfig) : Prop :=
  exists specTab,
    find isSpecificationTab (tabs docsConfig) = Some specTab /\
    forall g, In g (groups specTab) -> matchDate (group g) = None.

(** Where a group of the Specification tab is dated, one is marked. *)
Definition markedWhenDated (docsConfig : DocsConfig) : Prop :=
  forall specTab,
    find isSpecificationTab (tabs docsConfig) = Some specTab ->
    (exists g, In g (groups specTab) /\ matchDate (group g) <> None) ->
    exists g, In g (groups specTab) /\ isMarked (group g) = true.

(* ================================================================== *)
(** ** Reading a run *)

(** The full artifact of a run: the text written to
    [./mcp-spec-full.txt], the second file of a run with [--full]. *)
Definition fullArtifact (o : Outcome) : option jsstring :=
  match written o with
  | _ :: (_, text) :: _ => Some text
  | _ => None
  end.

(** The [Processed] lines and the missing-page warnings of a console. *)
Definition isProcessed (e : Event) : bool :=
  match e with
  | (LogLevel, Processed _) => true
  | _ => false
  end.

Definition isCouldNotFind (e : Event) : bool :=
  match e with
  | (WarnLevel, CouldNotFindFile _) => true
  | _ => false
  end.

(** Where [readSchemaFiles] looks for a schema file. *)
Definition schemaPath (version file : jsstring) : jsstring :=
  Path.join2 (js "../schema/" ++ version) file.

(** The section of the full artifact for a schema text. *)
Definition schemaSection (title lang text : jsstring) : jsstring :=
  js "# " ++ title ++ [LF; LF] ++ js "```" ++ lang ++ [LF] ++
  text ++ [LF] ++ js "```".

(** A reference whose segments between slashes are all names: none is
    empty, [.] or [..]. *)
Definition plainSegment (seg : jsstring) : bool :=
  negb (str_eqb seg [] || str_eqb seg [DOT] || str_eqb seg [DOT; DOT]).

Definition plainReference (item : jsstring) : bool :=
  forallb plainSegment (Path.split_slash [] item).

(** [a] occurs in [s] as a contiguous part. *)
Definition partOf (a s : jsstring) : Prop :=
  exists before after, s = before ++ a ++ after.


(* ================================================================== *)
(** ** Sample inputs *)

Module Sample.

(** Two files and nothing else. *)
Definition twoFiles (p1 d1 p2 d2 : jsstring) : FileSystem :=
  fun p =>
    if str_eqb p p1 then Contents d1
    else if str_eqb p p2 then Contents d2
    else NoSuchFile.

(** One file, with the given read outcome, and nothing else. *)
Definition oneFile (p1 : jsstring) (r : ReadOutcome) : FileSystem :=
  fun p => if str_eqb p p1 then r else NoSuchFile.

Definition noFiles : FileSystem := fun _ => NoSuchFile.

Definition latestLabel : jsstring := js "2025-06-18 (Latest)".

(** The configuration of the end-to-end example: rooted references. *)
Definition rootedConfig : DocsConfig :=
  mkDocsConfig
    [mkTab (js "Specification")
       [mkGroup latestLabel
          [Page (js "/basic/lifecycle"); Page (js "/server/tools")]]].

(** The two documents of the example below the specification directory. *)
Definition rootedFiles (d1 d2 : jsstring) : FileSystem :=
  twoFiles (js "../docs/specification/basic/lifecycle.mdx") d1
           (js "../docs/specification/server/tools.mdx") d2.

(** The same two documents at the paths the script computes for the
    rooted references. *)
Definition adjoinedFiles (d1 d2 : jsstring) : FileSystem :=
  twoFiles (js "../docs/specificationbasic/lifecycle.mdx") d1
           (js "../docs/specificationserver/tools.mdx") d2.

(** The artifact the example announces. *)
Definition announcedArtifact (body1 body2 : jsstring) : jsstring :=
  js "# basic/lifecycle" ++ [LF; LF] ++ body1 ++ separator ++
  js "# server/tools" ++ [LF; LF] ++ body2.

(** The same pages as references relative to the documentation directory,
    the way [docs.json] lists them. *)
Definition lifecyclePage : jsstring :=
  js "specification/2025-06-18/basic/lifecycle".
Definition toolsPage : jsstring :=
  js "specification/2025-06-18/server/tools".

Definition relativeConfig : DocsConfig :=
  mkDocsConfig
    [mkTab (js "Specification")
       [mkGroup latestLabel [Page lifecyclePage; Page toolsPage]]].

Definition relativeFiles (d1 d2 : jsstring) : FileSystem :=
  twoFiles (js "../docs/" ++ lifecyclePage ++ js ".mdx") d1
           (js "../docs/" ++ toolsPage ++ js ".mdx") d2.

Definition relativeArtifact (body1 body2 : jsstring) : jsstring :=
  js "# ../docs/basic/lifecycle" ++ [LF; LF] ++ body1 ++ separator ++
  js "# ../docs/server/tools" ++ [LF; LF] ++ body2.

Definition meta1 : jsstring := [LF] ++ js "title: Lifecycle" ++ [LF].
Definition meta2 : jsstring := [LF] ++ js "title: Tools" ++ [LF].
Definition body1 : jsstring := js "Lifecycle body".
Definition body2 : jsstring := js "Tools body".

(** Two dated groups, neither marked. *)
Definition unmarkedConfig : DocsConfig :=
  mkDocsConfig
    [mkTab (js "Specification")
       [mkGroup (js "2024-11-05") [Page (js "specification/2024-11-05/index")];
        mkGroup (js "2025-06-18") [Page (js "specification/2025-06-18/index")]]].

(** A marked group without a date in front of a marked group with one. *)
Definition undatedMarkerConfig : DocsConfig :=
  mkDocsConfig
    [mkTab (js "Specification")
       [mkGroup (js "Latest draft") [Page (js "specification/draft/index")];
        mkGroup latestLabel [Page lifecyclePage]]].

(** A document with a horizontal rule right behind its frontmatter. *)
Definition ruledDocument : jsstring :=
  document meta1
    (js "---" ++ [LF] ++ js "Overview" ++ [LF] ++ js "---" ++ [LF] ++
     js "Details").

(** The lifecycle document is there but cannot be read. *)
Definition deniedFiles : FileSystem :=
  oneFile (js "../docs/" ++ lifecyclePage ++ js ".mdx") ReadFailure.

(** The [.mdx] candidate cannot be read, the [.md] candidate can. *)
Definition shadowedFiles : FileSystem :=
  fun p =>
    if str_eqb p (js "../docs/" ++ lifecyclePage ++ js ".mdx")
    then ReadFailure
    else if str_eqb p (js "../docs/" ++ lifecyclePage ++ js ".md")
    then Contents body1
    else NoSuchFile.

(** The lifecycle document is an empty file. *)
Definition emptyFile : FileSystem :=
  oneFile (js "../docs/" ++ lifecyclePage ++ js ".mdx") (Contents []).

(** The lifecycle document has a frontmatter block and nothing else. *)
Definition frontmatterOnly : FileSystem :=
  oneFile (js "../docs/" ++ lifecyclePage ++ js ".mdx")
    (Contents (document meta1 [LF])).

(** Only the tools document is there. *)
Definition toolsOnly : FileSystem :=
  oneFile (js "../docs/" ++ toolsPage ++ js ".mdx")
    (Contents (document meta2 body2)).

Definition start : Progress := mkProgress [] 0 [].

(** An older group carries the marker, a newer one does not. *)
Definition markedOlderConfig : DocsConfig :=
  mkDocsConfig
    [mkTab (js "Specification")
       [mkGroup (js "2025-11-25 (Draft)") [Page (js "specification/draft/index")];
        mkGroup latestLabel [Page lifecyclePage; Page toolsPage];
        mkGroup (js "2024-11-05") [Page (js "specification/2024-11-05/index")]]].

(** A marked group without a date, and dated groups without a marker. *)
Definition undatedMarkerOnlyConfig : DocsConfig :=
  mkDocsConfig
    [mkTab (js "specification")
       [mkGroup (js "Latest draft") [Page (js "specification/draft/index")];
        mkGroup (js "2024-11-05") [Page (js "specification/2024-11-05/index")];
        mkGroup (js "2025-06-18") [Page lifecyclePage]]].

(** A marked group and no date anywhere. *)
Definition datelessConfig : DocsConfig :=
  mkDocsConfig
    [mkTab (js "SPECIFICATION")
       [mkGroup (js "Latest") [Page lifecyclePage];
        mkGroup (js "Draft") [Page toolsPage]]].

(** The two documents and the two schema files of the version. *)
Definition withSchemas (tsText jsonText : jsstring) : FileSystem :=
  fun p =>
    if str_eqb p (js "../schema/2025-06-18/schema.ts") then Contents tsText
    else if str_eqb p (js "../schema/2025-06-18/schema.json")
    then Contents jsonText
    else relativeFiles (document meta1 body1) (document meta2 body2) p.

(** A documentation tab in front of the Specification tab. *)
Definition twoTabsConfig : DocsConfig :=
  mkDocsConfig
    [mkTab (js "Documentation")
       [mkGroup (js "2099-01-01 (Latest)") [Page (js "docs/intro")]];
     mkTab (js "Specification")
       [mkGroup latestLabel [Page lifecyclePage; Page toolsPage]];
     mkTab (js "specification")
       [mkGroup (js "2030-01-01 (Latest)") [Page (js "other")]]].

(** Environments: everything in order; no output file can be written;
    only the second output file cannot be written; no configuration. *)
Definition healthy (cfg : DocsConfig) (fs : FileSystem) : Environment :=
  mkEnvironment (Loaded cfg) fs (fun _ => None).

Definition permissionDenied : jsstring := js "EACCES: permission denied".

Definition readOnly (cfg : DocsConfig) (fs : FileSystem) : Environment :=
  mkEnvironment (Loaded cfg) fs (fun _ => Some permissionDenied).

Definition fullReadOnly (cfg : DocsConfig) (fs : FileSystem) : Environment :=
  mkEnvironment (Loaded cfg) fs
    (fun p => if str_eqb p (js "./mcp-spec-full.txt")
              then Some permissionDenied else None).

Definition noConfig : Environment :=
  mkEnvironment (LoadFailed (js "ENOENT: no such file or directory"))
    noFiles (fun _ => None).

Definition tsText : jsstring := js "export type Id = string;".
Definition jsonText : jsstring := js "{}".

End Sample.

(* ================================================================== *)
(** ** Strings: basic facts *)

Section StringFacts.

Lemma str_eqb_eq (a b : jsstring) : str_eqb a b = true <-> a = b.
Proof.
  revert b; induction a as [|x a IH]; intros [|y b]; simpl;
    try (split; [discriminate | discriminate]); try tauto.
  rewrite andb_true_iff, N.eqb_eq, IH.
  split; [intros [-> ->]; reflexivity | intros H; inversion H; auto].
Qed.

Lemma str_eqb_refl (a : jsstring) : str_eqb a a = true.
Proof. apply str_eqb_eq; reflexivity. Qed.

Lemma startsWith_app (p s : jsstring) : startsWith p (p ++ s) = true.
Proof.
  induction p as [|x p IH]; simpl; [reflexivity|].
  rewrite N.eqb_refl; exact IH.
Qed.

(** A prefix test only looks at as many code units as the prefix has. *)
Lemma startsWith_extend (p s r : jsstring) :
  List.length p <= List.length s ->
  startsWith p (s ++ r) = startsWith p s.
Proof.
  revert s; induction p as [|x p IH]; intros [|y s] Hlen; simpl in *;
    try reflexivity; try lia.
  rewrite IH by lia; reflexivity.
Qed.

Lemma skipn_app_exact (p s : jsstring) : skipn (List.length p) (p ++ s) = s.
Proof. induction p; simpl; auto. Qed.

Lemma truthy_true (s : jsstring) : truthy s = true <-> s <> [].
Proof. destruct s; simpl; split; congruence. Qed.

Lemma truthy_app_l (a b : jsstring) : truthy a = true -> truthy (a ++ b) = true.
Proof. destruct a; simpl; [discriminate | auto]. Qed.

Lemma truthy_app_r (a b : jsstring) : truthy b = true -> truthy (a ++ b) = true.
Proof. destruct a; simpl; auto. Qed.

End StringFacts.

(** Some evaluations. *)

Example join2_plain :
  Path.join2 [] (js "specification/2025-06-18/index") =
  js "specification/2025-06-18/index".
Proof. vm_compute; reflexivity. Qed.

Example join2_normalises :
  Path.join2 (js "a/b") (js "../c//d/./e/") = js "a/c/d/e/".
Proof. vm_compute; reflexivity. Qed.

Example join2_above_root : Path.join2 [] (js "../../c") = js "../../c".
Proof. vm_compute; reflexivity. Qed.

Example trim_both_ends :
  trim ([LF; 32%N] ++ js "a b" ++ [9%N; LF]) = js "a b".
Proof. vm_compute; reflexivity. Qed.

Example clean_document :
  cleanMdxContent (document Sample.meta1 ([LF] ++ Sample.body1 ++ [LF])) =
  Sample.body1.
Proof. vm_compute; reflexivity. Qed.

Example clean_unclosed_fence :
  cleanMdxContent (js "---" ++ [LF] ++ js "title") =
  js "---" ++ [LF] ++ js "title".
Proof. vm_compute; reflexivity. Qed.

Example matchDate_leftmost :
  matchDate (js "from 2024-11-05 to 2025-06-18") = Some (js "2024-11-05").
Proof. vm_compute; reflexivity. Qed.

Example sort_dates :
  dateGroups
    [mkGroup (js "2025-03-27") []; mkGroup (js "draft") [];
     mkGroup (js "2025-06-18") []; mkGroup (js "2024-11-05") []] =
  [js "2025-06-18"; js "2025-03-27"; js "2024-11-05"].
Proof. vm_compute; reflexivity. Qed.

(* ================================================================== *)
(** ** The flattener *)

Section Flattener.

Variable basePath : jsstring.

(** Induction over page trees, with the hypothesis for every child. *)
Lemma NavigationItem_nested_ind (P : NavigationItem -> Prop) :
  (forall item, P (Page item)) ->
  (forall g ps, Forall P ps -> P (Nested g ps)) ->
  forall it, P it.
Proof.
  intros HPage HNested.
  fix IH 1.
  intros [item | g ps].
  - apply HPage.
  - apply HNested.
    induction ps as [|i ps IHps]; constructor.
    + apply IH.
    + exact IHps.
Qed.

(** The accumulating loop is an append of what each item yields. *)
Lemma push_loop (A : Type) (f : A -> list jsstring) (l : list A)
    (paths : list jsstring) :
  fold_left (fun paths i => paths ++ f i) l paths = paths ++ flat_map f l.
Proof.
  revert paths; induction l as [|i l IH]; intros paths; simpl.
  - now rewrite app_nil_r.
  - rewrite IH, app_assoc; reflexivity.
Qed.

Lemma extractPagePaths_flat_map (items : list NavigationItem) :
  extractPagePaths items basePath = flat_map (extractItem basePath) items.
Proof. unfold extractPagePaths; now rewrite push_loop. Qed.

Lemma extractItem_nested (g : option jsstring) (ps : list NavigationItem) :
  extractItem basePath (Nested g ps) = extractPagePaths ps basePath.
Proof. reflexivity. Qed.

Lemma extractItem_preorder (it : NavigationItem) :
  extractItem basePath it = List.map (fullPath basePath) (preorder_leaves it).
Proof.
  induction it as [item | g ps IH] using NavigationItem_nested_ind.
  - reflexivity.
  - rewrite extractItem_nested, extractPagePaths_flat_map.
    simpl preorder_leaves.
    induction IH as [|i ps Hi _ IHps]; simpl; [reflexivity|].
    now rewrite map_app, Hi, IHps.
Qed.

Lemma extractPagePaths_preorder (items : list NavigationItem) :
  extractPagePaths items basePath =
  List.map (fullPath basePath) (preorder items).
Proof.
  rewrite extractPagePaths_flat_map; unfold preorder.
  induction items as [|i items IH]; simpl; [reflexivity|].
  now rewrite map_app, extractItem_preorder, IH.
Qed.

Lemma extractPagePaths_app (l1 l2 : list NavigationItem) :
  extractPagePaths (l1 ++ l2) basePath =
  extractPagePaths l1 basePath ++ extractPagePaths l2 basePath.
Proof. rewrite !extractPagePaths_flat_map; apply flat_map_app. Qed.

Lemma extractPagePaths_cons (i : NavigationItem) (l : list NavigationItem) :
  extractPagePaths (i :: l) basePath =
  extractItem basePath i ++ extractPagePaths l basePath.
Proof. rewrite !extractPagePaths_flat_map; reflexivity. Qed.

(** Every extracted path starts with the documentation directory, so it is
    never the empty string. *)
Lemma fullPath_truthy (item : jsstring) : truthy (fullPath basePath item) = true.
Proof. unfold fullPath; destruct (startsWith (js "/") item); reflexivity. Qed.

Lemma extractPagePaths_truthy (items : list NavigationItem) (p : jsstring) :
  In p (extractPagePaths items basePath) -> p <> [].
Proof.
  rewrite extractPagePaths_preorder, in_map_iff.
  intros (item & <- & _); apply truthy_true, fullPath_truthy.
Qed.

Lemma fullPath_rooted (rest : jsstring) :
  fullPath basePath (SLASH :: rest) = js "../docs/specification" ++ rest.
Proof. reflexivity. Qed.

End Flattener.

(** C7.  The flattener is a total function from page trees to lists of
    paths: it maps the empty tree to the empty list, its output is the
    depth-first pre-order sequence of the leaf references (each rewritten
    to its path), and the pages of a nested group appear together, in
    their own order, at the place the group has among its siblings. *)
Theorem C7_flatten_is_preorder :
  forall (items : list NavigationItem) (basePath : jsstring),
    extractPagePaths [] basePath = [] /\
    extractPagePaths items basePath =
      List.map (fullPath basePath) (preorder items) /\
    (forall before g ps after,
        extractPagePaths (before ++ Nested g ps :: after) basePath =
        extractPagePaths before basePath ++
        extractPagePaths ps basePath ++
        extractPagePaths after basePath) /\
    List.length (extractPagePaths items basePath) =
      List.length (preorder items).
Proof.
  intros items basePath; repeat split.
  - apply extractPagePaths_preorder.
  - intros before g ps after.
    now rewrite extractPagePaths_app, extractPagePaths_cons,
      extractItem_nested.
  - now rewrite extractPagePaths_preorder, length_map.
Qed.

(** C1.  A reference that starts with the root marker loses the marker and
    is appended to the specification directory as it is: no path separator
    is put between the two.  [/basic/lifecycle] becomes
    [../docs/specificationbasic/lifecycle], which is not the reference
    joined onto the directory. *)
Theorem C1_root_marker_without_separator :
  (forall basePath rest,
      fullPath basePath (SLASH :: rest) = js "../docs/specification" ++ rest) /\
  extractPagePaths [Page (js "/basic/lifecycle")] [] =
    [js "../docs/specificationbasic/lifecycle"] /\
  ontoSpecificationRoot (js "basic/lifecycle") =
    js "../docs/specification/basic/lifecycle" /\
  extractPagePaths [Page (js "/basic/lifecycle")] [] <>
    [ontoSpecificationRoot (js "basic/lifecycle")].
Proof.
  split; [intros; apply fullPath_rooted|].
  split; [reflexivity|].
  split; [reflexivity|].
  vm_compute; discriminate.
Qed.

(* ================================================================== *)
(** ** [trim] and [cleanMdxContent] *)

Section Cleaning.

Lemma trimStart_length (s : jsstring) :
  List.length (trimStart s) <= List.length s.
Proof.
  induction s as [|c s IH]; simpl; [lia|].
  destruct (isWhiteSpace c); simpl; lia.
Qed.

Lemma trimStart_idem (s : jsstring) : trimStart (trimStart s) = trimStart s.
Proof.
  induction s as [|c s IH]; simpl; [reflexivity|].
  destruct (isWhiteSpace c) eqn:Hc; [exact IH|].
  simpl; now rewrite Hc.
Qed.

(** A string that [trimStart] leaves alone is empty or starts with a code
    unit that is not white space. *)
Lemma trimStart_fixed_head (c : N) (s : jsstring) :
  trimStart (c :: s) = c :: s -> isWhiteSpace c = false.
Proof.
  simpl; destruct (isWhiteSpace c); [|reflexivity].
  intros H; pose proof (trimStart_length s) as Hl.
  rewrite H in Hl; simpl in Hl; lia.
Qed.

Lemma trimStart_snoc (l : jsstring) (c : N) :
  isWhiteSpace c = false -> trimStart (l ++ [c]) = trimStart l ++ [c].
Proof.
  intros Hc; induction l as [|x l IH]; simpl.
  - now rewrite Hc.
  - destruct (isWhiteSpace x); [exact IH | reflexivity].
Qed.

Lemma trimEnd_idem (s : jsstring) : trimEnd (trimEnd s) = trimEnd s.
Proof. unfold trimEnd; now rewrite rev_involutive, trimStart_idem. Qed.

(** Trimming the end does not bring white space to the front. *)
Lemma trimEnd_keeps_start (t : jsstring) :
  trimStart t = t -> trimStart (trimEnd t) = trimEnd t.
Proof.
  destruct t as [|c t]; [reflexivity|].
  intros H; apply trimStart_fixed_head in H.
  unfold trimEnd; simpl rev.
  rewrite trimStart_snoc, rev_app_distr by exact H.
  simpl; now rewrite H.
Qed.

Lemma trim_idem (s : jsstring) : trim (trim s) = trim s.
Proof.
  unfold trim.
  rewrite trimEnd_keeps_start by apply trimStart_idem.
  apply trimEnd_idem.
Qed.

Lemma trimStart_skipNewlines (s : jsstring) :
  trimStart (skipNewlines s) = trimStart s.
Proof.
  induction s as [|c s IH]; simpl; [reflexivity|].
  destruct (N.eqb c LF) eqn:Hc.
  - apply N.eqb_eq in Hc; subst c; exact IH.
  - reflexivity.
Qed.

Lemma after_first_cons (p : jsstring) (c : N) (s : jsstring) :
  after_first p (c :: s) =
  if startsWith p (c :: s) then Some (skipn (List.length p) (c :: s))
  else after_first p s.
Proof. reflexivity. Qed.

Lemma after_first_here (p r : jsstring) : after_first p (p ++ r) = Some r.
Proof.
  destruct p as [|x p]; [destruct r; reflexivity|].
  change ((x :: p) ++ r) with (x :: (p ++ r)).
  rewrite after_first_cons.
  change (x :: (p ++ r)) with ((x :: p) ++ r).
  now rewrite startsWith_app, skipn_app_exact.
Qed.

(** When the first occurrence of [p] in [m ++ p] is the one at the end,
    it is also the first occurrence in [m ++ p ++ r]. *)
Lemma after_first_extend (p m r : jsstring) :
  after_first p (m ++ p) = Some [] ->
  after_first p (m ++ p ++ r) = Some r.
Proof.
  induction m as [|c m IH]; intros H.
  - exact (after_first_here p r).
  - change ((c :: m) ++ p ++ r) with (c :: (m ++ p ++ r)).
    change ((c :: m) ++ p) with (c :: (m ++ p)) in H.
    rewrite after_first_cons in *.
    assert (Hs : startsWith p (c :: m ++ p) = false).
    { destruct (startsWith p (c :: m ++ p)); [|reflexivity].
      exfalso. inversion H as [Hk].
      assert (Hl : List.length (skipn (List.length p) (c :: m ++ p)) = 0)
        by now rewrite Hk.
      assert (Hn : List.length (c :: m ++ p) =
                   S (List.length m + List.length p))
        by (simpl; now rewrite length_app).
      rewrite length_skipn, Hn in Hl; lia. }
    rewrite Hs in H.
    replace (c :: m ++ p ++ r) with ((c :: m ++ p) ++ r)
      by (simpl; now rewrite <- app_assoc).
    rewrite startsWith_extend, Hs.
    + replace ((c :: m ++ p) ++ r) with (c :: (m ++ p ++ r))
        by (simpl; now rewrite <- app_assoc).
      now apply IH.
    + simpl; rewrite length_app; lia.
Qed.

Lemma cleanMdxContent_plain (x : jsstring) :
  frontmatterMatch x = None -> cleanMdxContent x = trim x.
Proof.
  intros H; unfold cleanMdxContent, removeFrontmatter; now rewrite H.
Qed.

Lemma cleanMdxContent_trimmed (c : jsstring) :
  trim (cleanMdxContent c) = cleanMdxContent c.
Proof. apply trim_idem. Qed.

(** A document with a frontmatter block is cleaned to its trimmed body. *)
Lemma cleanMdxContent_document (meta body : jsstring) :
  isMetadata meta -> cleanMdxContent (document meta body) = trim body.
Proof.
  intros Hm.
  unfold cleanMdxContent, removeFrontmatter, frontmatterMatch, document.
  rewrite startsWith_app.
  unfold slice.
  change 3 with (List.length frontmatterFence).
  rewrite skipn_app_exact.
  rewrite (after_first_extend _ _ _ Hm); simpl option_map.
  unfold trim; now rewrite trimStart_skipNewlines.
Qed.

End Cleaning.

(** C5.  Cleaning a text twice gives the same as cleaning it once whenever
    the cleaned text does not itself begin with a block between two runs
    of three dashes. *)
Theorem C5_clean_twice_without_block :
  forall c : jsstring,
    frontmatterMatch (cleanMdxContent c) = None ->
    cleanMdxContent (cleanMdxContent c) = cleanMdxContent c.
Proof.
  intros c H.
  rewrite (cleanMdxContent_plain (cleanMdxContent c) H).
  apply cleanMdxContent_trimmed.
Qed.

Lemma C5_clean_twice_without_block_witness :
  frontmatterMatch (cleanMdxContent (document Sample.meta1 Sample.body1)) = None /\
  cleanMdxContent (cleanMdxContent (document Sample.meta1 Sample.body1)) =
  cleanMdxContent (document Sample.meta1 Sample.body1).
Proof.
  split.
  - vm_compute; reflexivity.
  - apply (C5_clean_twice_without_block (document Sample.meta1 Sample.body1)).
    vm_compute; reflexivity.
Defined.

(** C5, as the design document words it, fails: a document whose body
    starts with a horizontal rule is cleaned to a text that starts with
    three dashes again, and a second cleaning removes everything up to the
    next rule. *)
Lemma C5_counterexample :
  cleanMdxContent Sample.ruledDocument =
    js "---" ++ [LF] ++ js "Overview" ++ [LF] ++ js "---" ++ [LF] ++
    js "Details" /\
  cleanMdxContent (cleanMdxContent Sample.ruledDocument) = js "Details" /\
  cleanMdxContent (cleanMdxContent Sample.ruledDocument) <>
    cleanMdxContent Sample.ruledDocument.
Proof.
  split; [vm_compute; reflexivity|].
  split; [vm_compute; reflexivity|].
  vm_compute; discriminate.
Qed.

(* ================================================================== *)
(** ** The page loop *)

Section PageLoop.

Variable fs : FileSystem.
Variable latestVersion : jsstring.

(** The candidate the inner loop stops at is the first one whose read
    succeeds; the loop runs to the end when no read succeeds. *)
Lemma firstRead_spec (candidates : list jsstring) :
  match firstRead fs candidates with
  | Some (content, usedPath) =>
      exists before after,
        candidates = before ++ usedPath :: after /\
        fs usedPath = Contents content /\
        Forall (unreadable fs) before
  | None => Forall (unreadable fs) candidates
  end.
Proof.
  induction candidates as [|c l IH]; simpl; [constructor|].
  destruct (fs c) eqn:Hc.
  - exists [], l; repeat split; auto.
  - destruct (firstRead fs l) as [[content used]|].
    + destruct IH as (before & after & -> & Hu & Hb).
      exists (c :: before), after; repeat split; auto.
      constructor; [intros t; congruence | exact Hb].
    + constructor; [intros t; congruence | exact IH].
  - destruct (firstRead fs l) as [[content used]|].
    + destruct IH as (before & after & -> & Hu & Hb).
      exists (c :: before), after; repeat split; auto.
      constructor; [intros t; congruence | exact Hb].
    + constructor; [intros t; congruence | exact IH].
Qed.

Lemma firstRead_used_truthy (pagePath content usedPath : jsstring) :
  pagePath <> [] ->
  firstRead fs (possiblePaths pagePath) = Some (content, usedPath) ->
  truthy usedPath = true.
Proof.
  intros Hp H.
  pose proof (firstRead_spec (possiblePaths pagePath)) as Hs.
  rewrite H in Hs; destruct Hs as (before & after & Heq & _ & _).
  assert (Hin : In usedPath (possiblePaths pagePath))
    by (rewrite Heq; apply in_elt).
  simpl in Hin; destruct Hin as [<- | [<- | [<- | []]]].
  - apply truthy_app_r; reflexivity.
  - apply truthy_app_r; reflexivity.
  - now apply truthy_true.
Qed.

Lemma processPage_miss (st : Progress) (pagePath : jsstring) :
  firstRead fs (possiblePaths pagePath) = None ->
  processPage fs latestVersion st pagePath = couldNotFind st pagePath.
Proof. intros H; unfold processPage; now rewrite H. Qed.

(** One turn of the loop appends the sections and the events of the page. *)
Lemma processPage_appends (st : Progress) (pagePath : jsstring) :
  processPage fs latestVersion st pagePath =
  mkProgress
    (concatenatedContent st ++ sectionOf fs latestVersion pagePath)
    (processedCount st + List.length (sectionOf fs latestVersion pagePath))
    (console st ++ pageEvents fs pagePath).
Proof.
  unfold processPage, sectionOf, pageEvents, couldNotFind.
  destruct (firstRead fs (possiblePaths pagePath)) as [[content used]|];
    [destruct (truthy content && truthy used);
       [destruct (truthy (cleanMdxContent content))|]|];
    destruct st as [cc n cs]; simpl;
    rewrite ?app_nil_r, ?Nat.add_0_r, ?Nat.add_1_r; reflexivity.
Qed.

Lemma pages_loop (pagePaths : list jsstring) (st : Progress) :
  fold_left (processPage fs latestVersion) pagePaths st =
  mkProgress
    (concatenatedContent st ++
       flat_map (sectionOf fs latestVersion) pagePaths)
    (processedCount st +
       List.length (flat_map (sectionOf fs latestVersion) pagePaths))
    (console st ++ flat_map (pageEvents fs) pagePaths).
Proof.
  revert st; induction pagePaths as [|p l IH]; intros st; simpl.
  - destruct st; simpl; now rewrite !app_nil_r, Nat.add_0_r.
  - rewrite IH, processPage_appends; simpl.
    rewrite <- !app_assoc, length_app, Nat.add_assoc; reflexivity.
Qed.

Lemma sectionOf_miss (pagePath : jsstring) :
  firstRead fs (possiblePaths pagePath) = None ->
  sectionOf fs latestVersion pagePath = [] /\
  pageEvents fs pagePath = [(WarnLevel, CouldNotFindFile pagePath)].
Proof. intros H; unfold sectionOf, pageEvents; now rewrite H. Qed.

End PageLoop.

(** C10.  A page of the flattened tree whose file is read, is not the
    empty string, and is empty once the frontmatter is removed and the rest
    trimmed leaves the loop variables as they were: no section, no console
    message of any level, and no increment of the count of processed
    pages. *)
Theorem C10_blank_page_vanishes :
  forall (fs : FileSystem) (latestVersion : jsstring) (st : Progress)
         (items : list NavigationItem) (basePath : jsstring)
         (pagePath content usedPath : jsstring),
    In pagePath (extractPagePaths items basePath) ->
    firstRead fs (possiblePaths pagePath) = Some (content, usedPath) ->
    content <> [] ->
    cleanMdxContent content = [] ->
    processPage fs latestVersion st pagePath = st.
Proof.
  intros fs v st items b p content used Hin Hread Hc Hclean.
  apply extractPagePaths_truthy in Hin.
  unfold processPage; rewrite Hread.
  apply truthy_true in Hc; rewrite Hc.
  rewrite (firstRead_used_truthy fs p content used Hin Hread), Hclean.
  reflexivity.
Qed.

Lemma C10_blank_page_vanishes_witness :
  processPage Sample.frontmatterOnly (js "2025-06-18") Sample.start
    (js "../docs/" ++ Sample.lifecyclePage) = Sample.start.
Proof.
  apply (C10_blank_page_vanishes Sample.frontmatterOnly (js "2025-06-18")
           Sample.start [Page Sample.lifecyclePage] []
           (js "../docs/" ++ Sample.lifecyclePage)
           (document Sample.meta1 [LF])
           (js "../docs/" ++ Sample.lifecyclePage ++ js ".mdx")).
  - vm_compute; tauto.
  - vm_compute; reflexivity.
  - vm_compute; discriminate.
  - vm_compute; reflexivity.
Defined.

(** C10, for an empty file, fails: the file is found and read, its text is
    the empty string, and the loop takes the branch of a page without a
    file, which warns. *)
Lemma C10_counterexample :
  firstRead Sample.emptyFile
    (possiblePaths (js "../docs/" ++ Sample.lifecyclePage)) =
    Some ([], js "../docs/" ++ Sample.lifecyclePage ++ js ".mdx") /\
  cleanMdxContent [] = [] /\
  console (processPage Sample.emptyFile (js "2025-06-18") Sample.start
             (js "../docs/" ++ Sample.lifecyclePage)) =
    [(WarnLevel, CouldNotFindFile (js "../docs/" ++ Sample.lifecyclePage))] /\
  console (processPage Sample.emptyFile (js "2025-06-18") Sample.start
             (js "../docs/" ++ Sample.lifecyclePage)) <>
    console Sample.start.
Proof.
  split; [vm_compute; reflexivity|].
  split; [reflexivity|].
  split; [vm_compute; reflexivity|].
  vm_compute; discriminate.
Qed.

(* ================================================================== *)
(** ** Resolution of a page path *)

Lemma firstRead_readable_only (fs fs' : FileSystem) (l : list jsstring) :
  (forall c, In c l ->
     (exists t, fs c = Contents t) <-> (exists t, fs' c = Contents t)) ->
  option_map snd (firstRead fs l) = option_map snd (firstRead fs' l).
Proof.
  induction l as [|c l IH]; intros H; simpl; [reflexivity|].
  assert (Hl : option_map snd (firstRead fs l) =
               option_map snd (firstRead fs' l))
    by (apply IH; intros; apply H; now right).
  pose proof (H c (or_introl eq_refl)) as [H1 H2].
  destruct (fs c) eqn:Hc, (fs' c) eqn:Hc'; simpl; auto;
    try (destruct H1 as [t Ht]; [eexists; reflexivity | discriminate]);
    try (destruct H2 as [t Ht]; [eexists; reflexivity | discriminate]).
Qed.

(** C8.  The candidates of a page path are the path with [.mdx], the path
    with [.md] and the path itself, in this order.  The one used is the
    first whose read succeeds: every candidate in front of it failed to
    read, whether it exists or not.  Which one is used depends only on
    which candidates can be read, not on what they contain.  When no read
    succeeds the page takes the branch of a page without a file and the
    loop goes on. *)
Theorem C8_first_readable_candidate :
  forall (fs : FileSystem) (pagePath : jsstring),
    possiblePaths pagePath =
      [pagePath ++ js ".mdx"; pagePath ++ js ".md"; pagePath] /\
    match firstRead fs (possiblePaths pagePath) with
    | Some (content, usedPath) =>
        exists before after,
          possiblePaths pagePath = before ++ usedPath :: after /\
          fs usedPath = Contents content /\
          Forall (unreadable fs) before
    | None =>
        Forall (unreadable fs) (possiblePaths pagePath) /\
        forall latestVersion st,
          processPage fs latestVersion st pagePath = couldNotFind st pagePath
    end /\
    (forall fs' : FileSystem,
        (forall c, In c (possiblePaths pagePath) ->
           (exists t, fs c = Contents t) <-> (exists t, fs' c = Contents t)) ->
        option_map snd (firstRead fs (possiblePaths pagePath)) =
        option_map snd (firstRead fs' (possiblePaths pagePath))).
Proof.
  intros fs p; split; [reflexivity|]; split.
  - pose proof (firstRead_spec fs (possiblePaths p)) as Hs.
    destruct (firstRead fs (possiblePaths p)) as [[content used]|] eqn:Hr.
    + exact Hs.
    + split; [exact Hs|].
      intros v st; now apply processPage_miss.
  - intros fs'; apply firstRead_readable_only.
Qed.

Lemma C8_first_readable_candidate_witness :
  option_map snd
    (firstRead Sample.shadowedFiles
       (possiblePaths (js "../docs/" ++ Sample.lifecyclePage))) =
  option_map snd
    (firstRead (Sample.oneFile
                  (js "../docs/" ++ Sample.lifecyclePage ++ js ".md")
                  (Contents Sample.body2))
       (possiblePaths (js "../docs/" ++ Sample.lifecyclePage))).
Proof.
  apply (proj2 (proj2 (C8_first_readable_candidate Sample.shadowedFiles
                         (js "../docs/" ++ Sample.lifecyclePage)))).
  intros c [<- | [<- | [<- | []]]]; vm_compute;
    split; intros [t Ht]; try discriminate; eexists; reflexivity.
Defined.

(** C8, read with existence in place of a successful read, fails: the
    [.mdx] candidate exists and cannot be read, and the loop moves on to
    the [.md] candidate and uses it. *)
Lemma C8_counterexample :
  firstExisting Sample.shadowedFiles
    (possiblePaths (js "../docs/" ++ Sample.lifecyclePage)) =
    Some (js "../docs/" ++ Sample.lifecyclePage ++ js ".mdx") /\
  option_map snd
    (firstRead Sample.shadowedFiles
       (possiblePaths (js "../docs/" ++ Sample.lifecyclePage))) =
    Some (js "../docs/" ++ Sample.lifecyclePage ++ js ".md") /\
  option_map snd
    (firstRead Sample.shadowedFiles
       (possiblePaths (js "../docs/" ++ Sample.lifecyclePage))) <>
  firstExisting Sample.shadowedFiles
    (possiblePaths (js "../docs/" ++ Sample.lifecyclePage)).
Proof.
  split; [vm_compute; reflexivity|].
  split; [vm_compute; reflexivity|].
  vm_compute; discriminate.
Qed.

(* ================================================================== *)
(** ** Reads that fail *)

Section ReadFailures.

Variable fs : FileSystem.

Lemma firstRead_asMissing (l : list jsstring) :
  firstRead (asMissing fs) l = firstRead fs l.
Proof.
  induction l as [|c l IH]; simpl; [reflexivity|].
  unfold asMissing at 1; destruct (fs c); auto.
Qed.

Lemma processPage_asMissing (v : jsstring) (st : Progress) (p : jsstring) :
  processPage (asMissing fs) v st p = processPage fs v st p.
Proof. unfold processPage; now rewrite firstRead_asMissing. Qed.

Lemma pages_loop_asMissing (v : jsstring) (l : list jsstring) (st : Progress) :
  fold_left (processPage (asMissing fs) v) l st =
  fold_left (processPage fs v) l st.
Proof.
  revert st; induction l as [|p l IH]; intros st; simpl; [reflexivity|].
  now rewrite IH, processPage_asMissing.
Qed.

Lemma readSchema_asMissing (dir v file : jsstring) :
  readSchema (asMissing fs) dir v file = readSchema fs dir v file.
Proof.
  unfold readSchema, asMissing.
  destruct (fs (Path.join2 dir file)); reflexivity.
Qed.

Lemma readSchemaFiles_asMissing (v : jsstring) :
  readSchemaFiles (asMissing fs) v = readSchemaFiles fs v.
Proof. unfold readSchemaFiles; now rewrite !readSchema_asMissing. Qed.

Lemma concatenateSpec_asMissing (includeFull : bool) (cfg : DocsConfig) :
  concatenateSpec includeFull cfg (asMissing fs) =
  concatenateSpec includeFull cfg fs.
Proof.
  unfold concatenateSpec, concatenateSpecBody, bind.
  destruct (findLatestSpecVersion cfg) as [v|e]; [|reflexivity].
  destruct (getLatestSpecNavigation cfg) as [nav|e]; [|reflexivity].
  cbv zeta.
  now rewrite pages_loop_asMissing, readSchemaFiles_asMissing.
Qed.

End ReadFailures.

Lemma pageEvents_at_most_warning (fs : FileSystem) (pagePath : jsstring) :
  Forall (fun e => rank (fst e) <= rank WarnLevel) (pageEvents fs pagePath).
Proof.
  unfold pageEvents.
  destruct (firstRead fs (possiblePaths pagePath)) as [[content used]|];
    [destruct (truthy content && truthy used);
       [destruct (truthy (cleanMdxContent content))|]|];
    repeat constructor.
Qed.

(** C6.  A read that fails for a reason other than a missing file is
    handled like the read of a missing file: the run, its exit status, the
    files it writes and its console (messages and levels) are those of the
    run on the file system where the file is not there, and so is every
    turn of the page loop.  What a turn of the loop puts on the console is
    never above the level of a warning. *)
Theorem C6_read_failure_as_missing :
  forall (includeFull : bool) (cfg : DocsConfig) (fs : FileSystem)
         (latestVersion : jsstring) (st : Progress) (pagePath : jsstring),
    concatenateSpec includeFull cfg fs =
      concatenateSpec includeFull cfg (asMissing fs) /\
    processPage fs latestVersion st pagePath =
      processPage (asMissing fs) latestVersion st pagePath /\
    console (processPage fs latestVersion st pagePath) =
      console st ++ pageEvents fs pagePath /\
    Forall (fun e => rank (fst e) <= rank WarnLevel) (pageEvents fs pagePath).
Proof.
  intros; repeat split.
  - symmetry; apply concatenateSpec_asMissing.
  - symmetry; apply processPage_asMissing.
  - now rewrite processPage_appends.
  - apply pageEvents_at_most_warning.
Qed.

(** C6, as the design document words it, fails: the lifecycle document
    cannot be read, the run ends with status 0 and without a section for
    it, and the console holds for it the warning of a missing page and
    nothing above the level of a warning. *)
Lemma C6_counterexample :
  Sample.deniedFiles (js "../docs/" ++ Sample.lifecyclePage ++ js ".mdx") =
    ReadFailure /\
  exitStatus (concatenateSpec false Sample.relativeConfig Sample.deniedFiles)
    = 0%N /\
  In (WarnLevel, CouldNotFindFile (js "../docs/" ++ Sample.lifecyclePage))
    (events (concatenateSpec false Sample.relativeConfig Sample.deniedFiles)) /\
  events (concatenateSpec false Sample.relativeConfig Sample.deniedFiles) =
    events (concatenateSpec false Sample.relativeConfig Sample.noFiles) /\
  ~ (exists e,
        In e (events (concatenateSpec false Sample.relativeConfig
                        Sample.deniedFiles)) /\
        rank WarnLevel < rank (fst e)).
Proof.
  split; [vm_compute; reflexivity|].
  split; [vm_compute; reflexivity|].
  split; [vm_compute; tauto|].
  split; [vm_compute; reflexivity|].
  intros (e & Hin & Hlt).
  assert (Hall : forallb (fun e => Nat.leb (rank (fst e)) (rank WarnLevel))
                   (events (concatenateSpec false Sample.relativeConfig
                              Sample.deniedFiles)) = true)
    by (vm_compute; reflexivity).
  rewrite forallb_forall in Hall.
  apply Hall, Nat.leb_le in Hin; lia.
Qed.

(* ================================================================== *)
(** ** The whole run *)

Section Run.

(** A run that gets past the selection of the version. *)
Lemma concatenateSpec_selected (includeFull : bool) (cfg : DocsConfig)
    (fs : FileSystem) (v : jsstring) (nav : list NavigationItem) :
  findLatestSpecVersion cfg = Ok v ->
  getLatestSpecNavigation cfg = Ok nav ->
  let o := concatenateSpec includeFull cfg fs in
  let pagePaths := extractPagePaths nav [] in
  exitStatus o = 0%N /\
  primaryArtifact o =
    Some (join separator (flat_map (sectionOf fs v) pagePaths)) /\
  (forall e, In e (flat_map (pageEvents fs) pagePaths) -> In e (events o)) /\
  In (LogLevel,
      Concatenated (List.length (flat_map (sectionOf fs v) pagePaths)))
     (events o).
Proof.
  intros Hv Hn; cbv zeta.
  unfold concatenateSpec, concatenateSpecBody, bind; rewrite Hv, Hn; cbv zeta.
  rewrite pages_loop; simpl concatenatedContent; simpl console;
    simpl processedCount.
  destruct includeFull; simpl; repeat split; auto.
  - intros e He; do 3 right.
    rewrite <- app_assoc; apply in_or_app; now left.
  - do 3 right. rewrite <- app_assoc.
    apply in_or_app; right; now left.
  - intros e He; do 3 right. apply in_or_app; now left.
  - do 3 right. apply in_or_app; right; now left.
Qed.

End Run.

(** C2.  For the example configuration with its two pages listed relative
    to the documentation directory, and the two [.mdx] documents made of a
    frontmatter block and a body, the primary artifact is the two
    sections, each headed by the page path without its version segment and
    holding the trimmed body, joined by the separator. *)
Theorem C2_relative_example_artifact :
  forall meta1 body1 meta2 body2 : jsstring,
    isMetadata meta1 -> isMetadata meta2 ->
    trim body1 <> [] -> trim body2 <> [] ->
    primaryArtifact
      (concatenateSpec false Sample.relativeConfig
         (Sample.relativeFiles (document meta1 body1) (document meta2 body2)))
    = Some (Sample.relativeArtifact (trim body1) (trim body2)).
Proof.
  intros m1 b1 m2 b2 Hm1 Hm2 Hb1 Hb2.
  set (fs := Sample.relativeFiles (document m1 b1) (document m2 b2)).
  assert (Hv : findLatestSpecVersion Sample.relativeConfig =
               Ok (js "2025-06-18")) by (vm_compute; reflexivity).
  assert (Hn : getLatestSpecNavigation Sample.relativeConfig =
               Ok [Page Sample.lifecyclePage; Page Sample.toolsPage])
    by reflexivity.
  destruct (concatenateSpec_selected false Sample.relativeConfig fs _ _ Hv Hn) as (_ & Hart & _).
  rewrite Hart; f_equal.
  assert (Hp : extractPagePaths
                 [Page Sample.lifecyclePage; Page Sample.toolsPage] [] =
               [js "../docs/" ++ Sample.lifecyclePage;
                js "../docs/" ++ Sample.toolsPage])
    by (vm_compute; reflexivity).
  rewrite Hp; clear Hp Hart.
  assert (H1 : sectionOf fs (js "2025-06-18")
                 (js "../docs/" ++ Sample.lifecyclePage) =
               [js "# ../docs/basic/lifecycle" ++ [LF; LF] ++ trim b1]).
  { unfold sectionOf.
    replace (firstRead fs (possiblePaths (js "../docs/" ++ Sample.lifecyclePage)))
      with (Some (document m1 b1,
                  js "../docs/" ++ Sample.lifecyclePage ++ js ".mdx"))
      by reflexivity.
    rewrite (cleanMdxContent_document m1 b1 Hm1).
    apply truthy_true in Hb1; rewrite Hb1; reflexivity. }
  assert (H2 : sectionOf fs (js "2025-06-18")
                 (js "../docs/" ++ Sample.toolsPage) =
               [js "# ../docs/server/tools" ++ [LF; LF] ++ trim b2]).
  { unfold sectionOf.
    replace (firstRead fs (possiblePaths (js "../docs/" ++ Sample.toolsPage)))
      with (Some (document m2 b2,
                  js "../docs/" ++ Sample.toolsPage ++ js ".mdx"))
      by reflexivity.
    rewrite (cleanMdxContent_document m2 b2 Hm2).
    apply truthy_true in Hb2; rewrite Hb2; reflexivity. }
  cbn [flat_map]; rewrite H1, H2; reflexivity.
Qed.

Lemma C2_relative_example_artifact_witness :
  primaryArtifact
    (concatenateSpec false Sample.relativeConfig
       (Sample.relativeFiles (document Sample.meta1 Sample.body1)
          (document Sample.meta2 Sample.body2)))
  = Some (Sample.relativeArtifact Sample.body1 Sample.body2).
Proof.
  apply (C2_relative_example_artifact Sample.meta1 Sample.body1
           Sample.meta2 Sample.body2).
  - vm_compute; reflexivity.
  - vm_compute; reflexivity.
  - vm_compute; discriminate.
  - vm_compute; discriminate.
Defined.

(** The title of a page keeps the documentation directory in front: the
    version segment cannot start within [../docs/]. *)
Lemma pageTitle_keeps_docs_prefix (latestVersion rest : jsstring) :
  pageTitle latestVersion (js "../docs/" ++ rest) =
  js "../docs/" ++ pageTitle latestVersion rest.
Proof. reflexivity. Qed.

(** C2, as the design document words it, fails: with the rooted references
    [/basic/lifecycle] and [/server/tools] and the two documents below the
    specification directory, no candidate of either page is found and the
    primary artifact is the empty string.  With the documents at the paths
    the script does probe, the sections are headed by those paths. *)
Lemma C2_counterexample :
  primaryArtifact
    (concatenateSpec false Sample.rootedConfig
       (Sample.rootedFiles (document Sample.meta1 Sample.body1)
          (document Sample.meta2 Sample.body2))) = Some [] /\
  primaryArtifact
    (concatenateSpec false Sample.rootedConfig
       (Sample.rootedFiles (document Sample.meta1 Sample.body1)
          (document Sample.meta2 Sample.body2))) <>
  Some (Sample.announcedArtifact Sample.body1 Sample.body2) /\
  primaryArtifact
    (concatenateSpec false Sample.rootedConfig
       (Sample.adjoinedFiles (document Sample.meta1 Sample.body1)
          (document Sample.meta2 Sample.body2))) =
  Some (js "# ../docs/specificationbasic/lifecycle" ++ [LF; LF] ++
        Sample.body1 ++ separator ++
        js "# ../docs/specificationserver/tools" ++ [LF; LF] ++
        Sample.body2).
Proof.
  split; [vm_compute; reflexivity|].
  split; [vm_compute; discriminate|].
  vm_compute; reflexivity.
Qed.

(* ================================================================== *)
(** ** Sorting the date tokens *)

Section Sorting.

Lemma str_leb_refl (a : jsstring) : leq a a.
Proof.
  unfold leq; induction a as [|x a IH]; simpl; [reflexivity|].
  now rewrite N.ltb_irrefl.
Qed.

Lemma str_leb_total (a b : jsstring) : str_leb a b = false -> leq b a.
Proof.
  unfold leq; revert b; induction a as [|x a IH]; intros [|y b]; simpl;
    try discriminate; try reflexivity.
  destruct (N.ltb x y) eqn:Hxy; [discriminate|].
  destruct (N.ltb y x) eqn:Hyx; [reflexivity|].
  apply IH.
Qed.

Lemma str_leb_trans (a b c : jsstring) : leq a b -> leq b c -> leq a c.
Proof.
  unfold leq; revert b c; induction a as [|x a IH]; intros [|y b] [|z c];
    simpl; try discriminate; try reflexivity.
  destruct (N.ltb x y) eqn:Hxy, (N.ltb y z) eqn:Hyz,
           (N.ltb y x) eqn:Hyx, (N.ltb z y) eqn:Hzy,
           (N.ltb x z) eqn:Hxz, (N.ltb z x) eqn:Hzx;
    try discriminate; try reflexivity;
    rewrite ?N.ltb_lt, ?N.ltb_ge in *; try lia.
  apply IH.
Qed.

Lemma insert_sorted_In (x y : jsstring) (l : list jsstring) :
  In x (insert_sorted y l) <-> x = y \/ In x l.
Proof.
  induction l as [|z l IH]; simpl.
  - intuition congruence.
  - destruct (str_leb y z); simpl; rewrite ?IH; intuition congruence.
Qed.

Lemma sort_In (x : jsstring) (l : list jsstring) : In x (sort l) <-> In x l.
Proof.
  induction l as [|y l IH]; simpl; [tauto|].
  rewrite insert_sorted_In, IH; intuition congruence.
Qed.

Lemma insert_sorted_sorted (x : jsstring) (l : list jsstring) :
  StronglySorted leq l -> StronglySorted leq (insert_sorted x l).
Proof.
  induction 1 as [|y l Hs IH Hy]; simpl.
  - repeat constructor.
  - destruct (str_leb x y) eqn:Hxy.
    + constructor; [now constructor|].
      constructor; [exact Hxy|].
      eapply Forall_impl; [|exact Hy].
      intros z Hz; eapply str_leb_trans; [exact Hxy | exact Hz].
    + constructor; [exact IH|].
      apply Forall_forall; intros z Hz.
      apply insert_sorted_In in Hz; destruct Hz as [-> | Hz].
      * now apply str_leb_total.
      * rewrite Forall_forall in Hy; now apply Hy.
Qed.

Lemma sort_sorted (l : list jsstring) : StronglySorted leq (sort l).
Proof.
  induction l as [|x l IH]; simpl; [constructor|].
  now apply insert_sorted_sorted.
Qed.

Lemma sorted_last_greatest (l : list jsstring) (d : jsstring) :
  StronglySorted leq (l ++ [d]) -> Forall (fun x => leq x d) (l ++ [d]).
Proof.
  induction l as [|x l IH]; simpl; intros H.
  - repeat constructor; apply str_leb_refl.
  - inversion H as [|? ? Hs Hx]; subst.
    constructor; [|now apply IH].
    rewrite Forall_forall in Hx; apply Hx, in_elt.
Qed.

(** The head of the sorted and reversed list is a greatest element. *)
Lemma greatest_first (l r : list jsstring) (d : jsstring) :
  rev (sort l) = d :: r ->
  In d l /\ forall x, In x l -> leq x d.
Proof.
  intros H.
  assert (Hs : sort l = rev r ++ [d])
    by (rewrite <- (rev_involutive (sort l)), H; reflexivity).
  split.
  - apply sort_In; rewrite Hs; apply in_elt.
  - intros x Hx; apply sort_In in Hx.
    pose proof (sort_sorted l) as Hsorted; rewrite Hs in *.
    apply sorted_last_greatest in Hsorted.
    rewrite Forall_forall in Hsorted; now apply Hsorted.
Qed.

Lemma dateAt_truthy (s d : jsstring) : dateAt s = Some d -> truthy d = true.
Proof.
  unfold dateAt.
  do 10 (destruct s as [|? s]; [discriminate|]).
  match goal with |- (if ?c then _ else _) = _ -> _ => destruct c end;
    [|discriminate].
  intros H; inversion H; reflexivity.
Qed.

Lemma matchDate_truthy (s d : jsstring) : matchDate s = Some d -> truthy d = true.
Proof.
  induction s as [|c s IH].
  - discriminate.
  - change (matchDate (c :: s)) with
      (match dateAt (c :: s) with
       | Some d => Some d
       | None => matchDate s
       end).
    destruct (dateAt (c :: s)) as [d'|] eqn:Hd; [|exact IH].
    intros H; inversion H; subst; now apply (dateAt_truthy (c :: s)).
Qed.

Lemma filterBoolean_dates (gs : list Group) (d : jsstring) :
  In d (filterBoolean (List.map (fun g => matchDate (group g)) gs)) <->
  exists g, In g gs /\ matchDate (group g) = Some d.
Proof.
  induction gs as [|g gs IH]; simpl.
  - split; [tauto | intros (g & [] & _)].
  - destruct (matchDate (group g)) as [[|c t]|] eqn:Hg.
    + apply matchDate_truthy in Hg; discriminate.
    + simpl; rewrite IH; split.
      * intros [<- | (g' & Hin & Hd)]; [exists g | exists g']; auto.
      * intros (g' & [<- | Hin] & Hd); [left; congruence | right; eauto].
    + rewrite IH; split.
      * intros (g' & Hin & Hd); exists g'; auto.
      * intros (g' & [<- | Hin] & Hd); [congruence | eauto].
Qed.

(** The fallback of [findLatestSpecVersion] yields the greatest date token
    of the groups, when there is one. *)
Lemma dateGroups_greatest (gs : list Group) :
  (exists g, In g gs /\ matchDate (group g) <> None) ->
  exists g d r,
    dateGroups gs = d :: r /\
    In g gs /\ matchDate (group g) = Some d /\
    forall g' d', In g' gs -> matchDate (group g') = Some d' -> leq d' d.
Proof.
  intros (g0 & Hin0 & Hd0).
  destruct (matchDate (group g0)) as [d0|] eqn:Hg0; [clear Hd0|congruence].
  unfold dateGroups.
  set (dates := filterBoolean (List.map (fun g => matchDate (group g)) gs)).
  assert (Hd0 : In d0 dates) by (apply filterBoolean_dates; eauto).
  destruct (rev (sort dates)) as [|d r] eqn:Hr.
  - exfalso. apply sort_In, in_rev in Hd0. rewrite Hr in Hd0; exact Hd0.
  - destruct (greatest_first dates r d Hr) as [Hd Hmax].
    apply filterBoolean_dates in Hd; destruct Hd as (g & Hin & Hg).
    exists g, d, r; repeat split; auto.
    intros g' d' Hin' Hg'; apply Hmax, filterBoolean_dates; eauto.
Qed.

Lemma unmarked_selection (gs : list Group) :
  (forall g, In g gs -> isMarked (group g) = false) ->
  markedDate gs = None /\ latestGroup gs = None.
Proof.
  induction gs as [|g gs IH]; intros H; simpl; [auto|].
  rewrite (H g (or_introl eq_refl)).
  apply IH; intros g' Hg'; apply H; now right.
Qed.

(** When the first marked group carries a date, both functions select it. *)
Lemma marked_selection_agrees (gs : list Group) (g : Group) (d : jsstring) :
  latestGroup gs = Some g -> matchDate (group g) = Some d ->
  markedDate gs = Some d.
Proof.
  induction gs as [|g' gs IH]; simpl; [discriminate|].
  destruct (isMarked (group g')).
  - intros H Hd; inversion H; subst; now rewrite Hd.
  - exact IH.
Qed.

End Sorting.

(** C4.  In a Specification tab with dated groups of which none is marked,
    [findLatestSpecVersion] falls back to the greatest date token and
    returns it, while [getLatestSpecNavigation], which has no fallback,
    throws: the run ends in the [catch] with the error of a latest group
    not found, and no pages are flattened. *)
Theorem C4_unmarked_groups_abort :
  forall (includeFull : bool) (cfg : DocsConfig) (fs : FileSystem)
         (specTab : Tab),
    find isSpecificationTab (tabs cfg) = Some specTab ->
    (forall g, In g (groups specTab) -> isMarked (group g) = false) ->
    (exists g, In g (groups specTab) /\ matchDate (group g) <> None) ->
    exists g d,
      In g (groups specTab) /\ matchDate (group g) = Some d /\
      (forall g' d', In g' (groups specTab) ->
                     matchDate (group g') = Some d' -> leq d' d) /\
      findLatestSpecVersion cfg = Ok d /\
      getLatestSpecNavigation cfg = Throw LatestGroupNotFound /\
      concatenateSpec includeFull cfg fs = abort LatestGroupNotFound.
Proof.
  intros includeFull cfg fs specTab Htab Hun Hdated.
  destruct (unmarked_selection (groups specTab) Hun) as [Hmd Hlg].
  destruct (dateGroups_greatest (groups specTab) Hdated)
    as (g & d & r & Hdg & Hin & Hg & Hmax).
  assert (Hv : findLatestSpecVersion cfg = Ok d)
    by (unfold findLatestSpecVersion; now rewrite Htab, Hmd, Hdg).
  assert (Hn : getLatestSpecNavigation cfg = Throw LatestGroupNotFound)
    by (unfold getLatestSpecNavigation; now rewrite Htab, Hlg).
  exists g, d; repeat split; auto.
  unfold concatenateSpec, concatenateSpecBody, bind; now rewrite Hv, Hn.
Qed.

Lemma C4_unmarked_groups_abort_witness :
  exists g d,
    In g [mkGroup (js "2024-11-05") [Page (js "specification/2024-11-05/index")];
          mkGroup (js "2025-06-18") [Page (js "specification/2025-06-18/index")]] /\
    matchDate (group g) = Some d /\
    (forall g' d',
        In g' [mkGroup (js "2024-11-05")
                 [Page (js "specification/2024-11-05/index")];
               mkGroup (js "2025-06-18")
                 [Page (js "specification/2025-06-18/index")]] ->
        matchDate (group g') = Some d' -> leq d' d) /\
    findLatestSpecVersion Sample.unmarkedConfig = Ok d /\
    getLatestSpecNavigation Sample.unmarkedConfig =
      Throw LatestGroupNotFound /\
    concatenateSpec false Sample.unmarkedConfig Sample.noFiles =
      abort LatestGroupNotFound.
Proof.
  apply (C4_unmarked_groups_abort false Sample.unmarkedConfig Sample.noFiles
           (mkTab (js "Specification")
              [mkGroup (js "2024-11-05")
                 [Page (js "specification/2024-11-05/index")];
               mkGroup (js "2025-06-18")
                 [Page (js "specification/2025-06-18/index")]])).
  - vm_compute; reflexivity.
  - intros g [<- | [<- | []]]; vm_compute; reflexivity.
  - exists (mkGroup (js "2024-11-05")
              [Page (js "specification/2024-11-05/index")]).
    split; [now left | vm_compute; discriminate].
Defined.

(** C3.  The version and the pages are selected by two functions that do
    not agree on every configuration.  With two dated groups and no marked
    one, the version is resolved and the pages are not.  With a marked
    group without a date in front of a marked group with one, the version
    is the date of the second group and the pages are those of the
    first. *)
Theorem C3_selection_diverges :
  (findLatestSpecVersion Sample.unmarkedConfig = Ok (js "2025-06-18") /\
   getLatestSpecNavigation Sample.unmarkedConfig =
     Throw LatestGroupNotFound) /\
  (findLatestSpecVersion Sample.undatedMarkerConfig = Ok (js "2025-06-18") /\
   getLatestSpecNavigation Sample.undatedMarkerConfig =
     Ok [Page (js "specification/draft/index")] /\
   matchDate (js "Latest draft") = None /\
   matchDate Sample.latestLabel = Some (js "2025-06-18")).
Proof.
  repeat split; vm_compute; reflexivity.
Qed.

(* ================================================================== *)
(** ** Further properties: the selection of the version *)

Section Selection.

Lemma latestGroup_first (before after : list Group) (g : Group) :
  (forall g', In g' before -> isMarked (group g') = false) ->
  isMarked (group g) = true ->
  latestGroup (before ++ g :: after) = Some g.
Proof.
  intros Hb Hg; induction before as [|b before IH]; simpl.
  - now rewrite Hg.
  - rewrite (Hb b (or_introl eq_refl)).
    apply IH; intros g' Hin; apply Hb; now right.
Qed.

Lemma markedDate_sound (gs : list Group) (d : jsstring) :
  markedDate gs = Some d ->
  exists g, In g gs /\ isMarked (group g) = true /\
            matchDate (group g) = Some d.
Proof.
  induction gs as [|g gs IH]; simpl; [discriminate|].
  destruct (isMarked (group g)) eqn:Hm.
  - destruct (matchDate (group g)) as [d'|] eqn:Hd.
    + intros H; inversion H; subst; exists g; auto.
    + intros H; destruct (IH H) as (g' & Hin & Hm' & Hd').
      exists g'; auto.
  - intros H; destruct (IH H) as (g' & Hin & Hm' & Hd').
    exists g'; auto.
Qed.

Lemma markedDate_none (gs : list Group) :
  (forall g, In g gs -> isMarked (group g) = true ->
             matchDate (group g) = None) ->
  markedDate gs = None.
Proof.
  induction gs as [|g gs IH]; intros H; simpl; [reflexivity|].
  assert (Hrest : markedDate gs = None)
    by (apply IH; intros g' Hin; apply H; now right).
  destruct (isMarked (group g)) eqn:Hm; [|exact Hrest].
  now rewrite (H g (or_introl eq_refl) Hm).
Qed.

Lemma dateAt_shape (s d : jsstring) :
  dateAt s = Some d ->
  dateAt d = Some d /\ List.length d = 10 /\ exists after, s = d ++ after.
Proof.
  unfold dateAt at 1.
  do 10 (destruct s as [|? s]; [discriminate|]).
  match goal with
  | |- (if ?c then _ else _) = _ -> _ => destruct c eqn:Hc
  end; [|discriminate].
  intros H; inversion H; subst; clear H.
  split; [unfold dateAt; now rewrite Hc|].
  split; [reflexivity|].
  exists s; reflexivity.
Qed.

Lemma matchDate_shape (s d : jsstring) :
  matchDate s = Some d ->
  dateAt d = Some d /\ List.length d = 10 /\ partOf d s.
Proof.
  induction s as [|c s IH].
  - discriminate.
  - change (matchDate (c :: s)) with
      (match dateAt (c :: s) with
       | Some d => Some d
       | None => matchDate s
       end).
    destruct (dateAt (c :: s)) as [d'|] eqn:Hd.
    + intros H; inversion H; subst.
      destruct (dateAt_shape (c :: s) d Hd) as (H1 & H2 & after & H3).
      repeat split; auto.
      exists [], after; exact H3.
    + intros H; destruct (IH H) as (H1 & H2 & before & after & H3).
      repeat split; auto.
      exists (c :: before), after; simpl; now rewrite H3.
Qed.

Lemma dateGroups_empty (gs : list Group) :
  (forall g, In g gs -> matchDate (group g) = None) -> dateGroups gs = [].
Proof.
  intros H; unfold dateGroups.
  replace (filterBoolean (List.map (fun g => matchDate (group g)) gs))
    with (@nil jsstring); [reflexivity|].
  induction gs as [|g gs IH]; simpl; [reflexivity|].
  rewrite (H g (or_introl eq_refl)).
  apply IH; intros g' Hin; apply H; now right.
Qed.

End Selection.

(** X1.  The first marked group of the Specification tab, when its label
    carries a date, is the group both functions select: the version is its
    date and the pages are its pages, whatever dates the groups around it
    carry. *)
Theorem X1_first_marked_group_selected :
  forall (cfg : DocsConfig) (specTab : Tab) (before after : list Group)
         (g : Group) (d : jsstring),
    find isSpecificationTab (tabs cfg) = Some specTab ->
    groups specTab = before ++ g :: after ->
    (forall g', In g' before -> isMarked (group g') = false) ->
    isMarked (group g) = true ->
    matchDate (group g) = Some d ->
    findLatestSpecVersion cfg = Ok d /\
    getLatestSpecNavigation cfg = Ok (pages g).
Proof.
  intros cfg specTab before after g d Htab Hgs Hb Hg Hd.
  pose proof (latestGroup_first before after g Hb Hg) as Hl.
  unfold findLatestSpecVersion, getLatestSpecNavigation.
  rewrite Htab, Hgs, Hl.
  now rewrite (marked_selection_agrees (before ++ g :: after) g d Hl Hd).
Qed.

Lemma X1_first_marked_group_selected_witness :
  findLatestSpecVersion Sample.markedOlderConfig = Ok (js "2025-06-18") /\
  getLatestSpecNavigation Sample.markedOlderConfig =
    Ok [Page Sample.lifecyclePage; Page Sample.toolsPage].
Proof.
  apply (X1_first_marked_group_selected Sample.markedOlderConfig
           (mkTab (js "Specification")
              [mkGroup (js "2025-11-25 (Draft)")
                 [Page (js "specification/draft/index")];
               mkGroup Sample.latestLabel
                 [Page Sample.lifecyclePage; Page Sample.toolsPage];
               mkGroup (js "2024-11-05")
                 [Page (js "specification/2024-11-05/index")]])
           [mkGroup (js "2025-11-25 (Draft)")
              [Page (js "specification/draft/index")]]
           [mkGroup (js "2024-11-05")
              [Page (js "specification/2024-11-05/index")]]
           (mkGroup Sample.latestLabel
              [Page Sample.lifecyclePage; Page Sample.toolsPage])
           (js "2025-06-18")).
  - vm_compute; reflexivity.
  - reflexivity.
  - intros g' [<- | []]; vm_compute; reflexivity.
  - vm_compute; reflexivity.
  - vm_compute; reflexivity.
Defined.

(** X2.  A version that [findLatestSpecVersion] returns is always a date
    token of ten code units (four digits, dash, two digits, dash, two
    digits) that occurs in the label of a group of the Specification
    tab. *)
Theorem X2_version_is_a_label_date :
  forall (cfg : DocsConfig) (v : jsstring),
    findLatestSpecVersion cfg = Ok v ->
    exists specTab g,
      find isSpecificationTab (tabs cfg) = Some specTab /\
      In g (groups specTab) /\
      matchDate (group g) = Some v /\
      partOf v (group g) /\
      List.length v = 10 /\
      dateAt v = Some v.
Proof.
  intros cfg v; unfold findLatestSpecVersion.
  destruct (find isSpecificationTab (tabs cfg)) as [specTab|];
    [|discriminate].
  assert (Hfin : forall g, In g (groups specTab) ->
                           matchDate (group g) = Some v ->
            exists specTab' g',
              Some specTab = Some specTab' /\ In g' (groups specTab') /\
              matchDate (group g') = Some v /\ partOf v (group g') /\
              List.length v = 10 /\ dateAt v = Some v).
  { intros g Hin Hd.
    destruct (matchDate_shape (group g) v Hd) as (H1 & H2 & H3).
    exists specTab, g; repeat split; auto. }
  destruct (markedDate (groups specTab)) as [d|] eqn:Hmd.
  - intros H; inversion H; subst.
    destruct (markedDate_sound (groups specTab) v Hmd) as (g & Hin & _ & Hd).
    now apply (Hfin g).
  - destruct (dateGroups (groups specTab)) as [|d r] eqn:Hdg; [discriminate|].
    intros H; inversion H; subst.
    destruct (greatest_first _ r v Hdg) as [Hd _].
    apply filterBoolean_dates in Hd; destruct Hd as (g & Hin & Hd).
    now apply (Hfin g).
Qed.

Lemma X2_version_is_a_label_date_witness :
  exists specTab g,
    find isSpecificationTab (tabs Sample.unmarkedConfig) = Some specTab /\
    In g (groups specTab) /\
    matchDate (group g) = Some (js "2025-06-18") /\
    partOf (js "2025-06-18") (group g) /\
    List.length (js "2025-06-18") = 10 /\
    dateAt (js "2025-06-18") = Some (js "2025-06-18").
Proof.
  apply (X2_version_is_a_label_date Sample.unmarkedConfig (js "2025-06-18")).
  vm_compute; reflexivity.
Defined.

(** X3.  When no marked group of the Specification tab carries a date and
    some group does, [findLatestSpecVersion] returns the greatest date
    token of all the groups, in the order of [sort]. *)
Theorem X3_fallback_greatest_date :
  forall (cfg : DocsConfig) (specTab : Tab),
    find isSpecificationTab (tabs cfg) = Some specTab ->
    (forall g, In g (groups specTab) -> isMarked (group g) = true ->
               matchDate (group g) = None) ->
    (exists g, In g (groups specTab) /\ matchDate (group g) <> None) ->
    exists g d,
      In g (groups specTab) /\ matchDate (group g) = Some d /\
      (forall g' d', In g' (groups specTab) ->
                     matchDate (group g') = Some d' -> leq d' d) /\
      findLatestSpecVersion cfg = Ok d.
Proof.
  intros cfg specTab Htab Hundated Hdated.
  pose proof (markedDate_none (groups specTab) Hundated) as Hmd.
  destruct (dateGroups_greatest (groups specTab) Hdated)
    as (g & d & r & Hdg & Hin & Hg & Hmax).
  exists g, d; repeat split; auto.
  unfold findLatestSpecVersion; now rewrite Htab, Hmd, Hdg.
Qed.

Lemma X3_fallback_greatest_date_witness :
  exists g d,
    In g (groups (mkTab (js "specification")
       [mkGroup (js "Latest draft") [Page (js "specification/draft/index")];
        mkGroup (js "2024-11-05") [Page (js "specification/2024-11-05/index")];
        mkGroup (js "2025-06-18") [Page Sample.lifecyclePage]])) /\
    matchDate (group g) = Some d /\
    (forall g' d',
        In g' (groups (mkTab (js "specification")
          [mkGroup (js "Latest draft") [Page (js "specification/draft/index")];
           mkGroup (js "2024-11-05")
             [Page (js "specification/2024-11-05/index")];
           mkGroup (js "2025-06-18") [Page Sample.lifecyclePage]])) ->
        matchDate (group g') = Some d' -> leq d' d) /\
    findLatestSpecVersion Sample.undatedMarkerOnlyConfig = Ok d.
Proof.
  apply (X3_fallback_greatest_date Sample.undatedMarkerOnlyConfig).
  - vm_compute; reflexivity.
  - intros g [<- | [<- | [<- | []]]]; vm_compute; intros H;
      first [reflexivity | discriminate].
  - exists (mkGroup (js "2025-06-18") [Page Sample.lifecyclePage]).
    split; [simpl; tauto | vm_compute; discriminate].
Defined.

(** X4.  When no group label of the Specification tab carries a date, the
    run stops in its [catch] with the error of no versioned groups: exit
    status 1, nothing written, one message on [console.error].  This holds
    also when a group is marked as latest. *)
Theorem X4_no_dated_group_aborts :
  forall (includeFull : bool) (cfg : DocsConfig) (fs : FileSystem)
         (specTab : Tab),
    find isSpecificationTab (tabs cfg) = Some specTab ->
    (forall g, In g (groups specTab) -> matchDate (group g) = None) ->
    findLatestSpecVersion cfg = Throw NoVersionedGroups /\
    concatenateSpec includeFull cfg fs =
      mkOutcome 1 []
        [(ErrorLevel,
          ErrorMessage (js "No versioned specification groups found"))].
Proof.
  intros includeFull cfg fs specTab Htab Hnone.
  assert (Hv : findLatestSpecVersion cfg = Throw NoVersionedGroups).
  { unfold findLatestSpecVersion; rewrite Htab.
    rewrite markedDate_none by (intros g Hin _; now apply Hnone).
    now rewrite dateGroups_empty. }
  split; [exact Hv|].
  unfold concatenateSpec, concatenateSpecBody, bind; now rewrite Hv.
Qed.

Lemma X4_no_dated_group_aborts_witness :
  findLatestSpecVersion Sample.datelessConfig = Throw NoVersionedGroups /\
  concatenateSpec true Sample.datelessConfig Sample.noFiles =
    mkOutcome 1 []
      [(ErrorLevel,
        ErrorMessage (js "No versioned specification groups found"))].
Proof.
  apply (X4_no_dated_group_aborts true Sample.datelessConfig Sample.noFiles
           (mkTab (js "SPECIFICATION")
              [mkGroup (js "Latest") [Page Sample.lifecyclePage];
               mkGroup (js "Draft") [Page Sample.toolsPage]])).
  - vm_compute; reflexivity.
  - intros g [<- | [<- | []]]; vm_compute; reflexivity.
Defined.

(* ================================================================== *)
(** ** Further properties: cleaned content and titles *)

Section CleanedContent.

Lemma trimStart_suffix (s : jsstring) : exists before, s = before ++ trimStart s.
Proof.
  induction s as [|c s [before IH]]; simpl.
  - exists []; reflexivity.
  - destruct (isWhiteSpace c).
    + exists (c :: before); simpl; now rewrite <- IH.
    + exists []; reflexivity.
Qed.

Lemma trimEnd_prefix (s : jsstring) : exists after, s = trimEnd s ++ after.
Proof.
  destruct (trimStart_suffix (rev s)) as [before H].
  exists (rev before); unfold trimEnd.
  rewrite <- rev_app_distr, <- H; symmetry; apply rev_involutive.
Qed.

Lemma trim_partOf (s : jsstring) : partOf (trim s) s.
Proof.
  destruct (trimStart_suffix s) as [before H1].
  destruct (trimEnd_prefix (trimStart s)) as [after H2].
  exists before, after; unfold trim.
  now rewrite <- H2.
Qed.

Lemma skipNewlines_suffix (s : jsstring) :
  exists before, s = before ++ skipNewlines s.
Proof.
  induction s as [|c s [before IH]]; simpl.
  - exists []; reflexivity.
  - destruct (N.eqb c LF).
    + exists (c :: before); simpl; now rewrite <- IH.
    + exists []; reflexivity.
Qed.

Lemma after_first_suffix (p s r : jsstring) :
  after_first p s = Some r -> exists before, s = before ++ r.
Proof.
  induction s as [|c s IH].
  - simpl; destruct (startsWith p []); [|discriminate].
    intros H; inversion H; subst.
    exists (firstn (List.length p) []); symmetry; apply firstn_skipn.
  - rewrite after_first_cons.
    destruct (startsWith p (c :: s)).
    + intros H; inversion H; subst.
      exists (firstn (List.length p) (c :: s)); symmetry; apply firstn_skipn.
    + intros H; destruct (IH H) as [before Hb].
      exists (c :: before); simpl; now rewrite <- Hb.
Qed.

Lemma removeFrontmatter_suffix (c : jsstring) :
  exists before, c = before ++ removeFrontmatter c.
Proof.
  unfold removeFrontmatter, frontmatterMatch.
  destruct (startsWith frontmatterFence c); [|exists []; reflexivity].
  destruct (after_first frontmatterFence (slice 3 c)) as [r|] eqn:Hr;
    simpl; [|exists []; reflexivity].
  destruct (after_first_suffix _ _ _ Hr) as [b1 H1].
  destruct (skipNewlines_suffix r) as [b2 H2].
  exists (firstn 3 c ++ b1 ++ b2).
  rewrite <- !app_assoc, <- H2, <- H1.
  symmetry; apply firstn_skipn.
Qed.

Lemma partOf_length (a s : jsstring) :
  partOf a s -> List.length a <= List.length s.
Proof.
  intros (before & after & ->); rewrite !length_app; lia.
Qed.

(** The two ends of a trimmed string are not white space. *)
Lemma trim_keeps_start (s : jsstring) : trimStart (trim s) = trim s.
Proof. unfold trim; apply trimEnd_keeps_start, trimStart_idem. Qed.

Lemma trim_keeps_end (s : jsstring) : trimStart (rev (trim s)) = rev (trim s).
Proof.
  unfold trim, trimEnd; rewrite rev_involutive; apply trimStart_idem.
Qed.

Lemma remove_first_here (p r : jsstring) : remove_first p (p ++ r) = r.
Proof.
  destruct p as [|x p]; [destruct r; reflexivity|].
  change ((x :: p) ++ r) with (x :: (p ++ r)).
  change (remove_first (x :: p) (x :: (p ++ r))) with
    (if startsWith (x :: p) (x :: (p ++ r))
     then skipn (List.length (x :: p)) (x :: (p ++ r))
     else x :: remove_first (x :: p) (p ++ r)).
  change (x :: (p ++ r)) with ((x :: p) ++ r).
  now rewrite startsWith_app, skipn_app_exact.
Qed.

Lemma remove_first_absent (p s : jsstring) :
  includes p s = false -> remove_first p s = s.
Proof.
  induction s as [|c s IH]; simpl.
  - destruct (startsWith p []); [discriminate | reflexivity].
  - destruct (startsWith p (c :: s)); [discriminate|].
    simpl; intros H; now rewrite IH.
Qed.

Lemma fullPath_below_docs (basePath item : jsstring) :
  exists rest, fullPath basePath item = js "../docs/" ++ rest.
Proof.
  unfold fullPath; destruct (startsWith (js "/") item).
  - exists (js "specification" ++ slice 1 item); reflexivity.
  - exists (Path.join2 basePath item); reflexivity.
Qed.

End CleanedContent.

(** X5.  [cleanMdxContent] only removes from the two ends: its result
    occurs in the content as one contiguous part, so nothing inside it is
    altered, and it is never longer than the content. *)
Theorem X5_clean_is_part_of_content :
  forall content : jsstring,
    partOf (cleanMdxContent content) content /\
    List.length (cleanMdxContent content) <= List.length content.
Proof.
  intros c.
  assert (H : partOf (cleanMdxContent c) c).
  { destruct (removeFrontmatter_suffix c) as [b0 H0].
    destruct (trim_partOf (removeFrontmatter c)) as (b1 & a1 & H1).
    exists (b0 ++ b1), a1; unfold cleanMdxContent.
    rewrite <- app_assoc, <- H1; exact H0. }
  split; [exact H | now apply partOf_length].
Qed.

(** X6.  The result of [cleanMdxContent] neither starts nor ends with a
    white space code unit. *)
Theorem X6_clean_has_no_outer_space :
  forall content : jsstring,
    (forall x rest, cleanMdxContent content = x :: rest ->
                    isWhiteSpace x = false) /\
    (forall rest x, cleanMdxContent content = rest ++ [x] ->
                    isWhiteSpace x = false).
Proof.
  intros c; unfold cleanMdxContent; split.
  - intros x rest H.
    pose proof (trim_keeps_start (removeFrontmatter c)) as Hs.
    rewrite H in Hs; now apply trimStart_fixed_head in Hs.
  - intros rest x H.
    pose proof (trim_keeps_end (removeFrontmatter c)) as He.
    rewrite H, rev_app_distr in He; simpl in He.
    revert He; apply trimStart_fixed_head.
Qed.

(** X7.  Round trip: a document made of a frontmatter block and a body is
    cleaned to the trimmed body, whatever the body contains (further runs
    of dashes included); a body without outer white space comes back as it
    is. *)
Theorem X7_frontmatter_round_trip :
  forall meta body : jsstring,
    isMetadata meta ->
    cleanMdxContent (document meta body) = trim body /\
    (trim body = body -> cleanMdxContent (document meta body) = body).
Proof.
  intros meta body Hm.
  pose proof (cleanMdxContent_document meta body Hm) as H.
  split; [exact H | intros Hb; now rewrite H].
Qed.

Lemma X7_frontmatter_round_trip_witness :
  cleanMdxContent
    (document Sample.meta1
       (js "Intro" ++ [LF] ++ js "---" ++ [LF] ++ js "More" ++ [LF])) =
  trim (js "Intro" ++ [LF] ++ js "---" ++ [LF] ++ js "More" ++ [LF]).
Proof.
  apply (X7_frontmatter_round_trip Sample.meta1
           (js "Intro" ++ [LF] ++ js "---" ++ [LF] ++ js "More" ++ [LF])).
  vm_compute; reflexivity.
Defined.

(** X8.  The title of a page below the directory of the selected version
    is its path without the version segment:
    [../docs/specification/<version>/<rest>] is titled [../docs/<rest>].
    A path in which the version segment does not occur is its own
    title. *)
Theorem X8_title_drops_version_segment :
  forall latestVersion : jsstring,
    (forall rest,
        pageTitle latestVersion
          (js "../docs/specification/" ++ latestVersion ++ js "/" ++ rest) =
        js "../docs/" ++ rest) /\
    (forall pagePath,
        includes (js "specification/" ++ latestVersion ++ js "/") pagePath
          = false ->
        pageTitle latestVersion pagePath = pagePath).
Proof.
  intros v; split.
  - intros rest.
    replace (js "../docs/specification/" ++ v ++ js "/" ++ rest)
      with (js "../docs/" ++
            (js "specification/" ++ v ++ js "/") ++ rest)
      by (rewrite <- !app_assoc; reflexivity).
    rewrite pageTitle_keeps_docs_prefix; unfold pageTitle.
    now rewrite remove_first_here.
  - intros p H; unfold pageTitle; now apply remove_first_absent.
Qed.

Lemma X8_title_drops_version_segment_witness :
  pageTitle (js "2025-06-18") (js "../docs/specification/draft/index") =
  js "../docs/specification/draft/index".
Proof.
  apply (proj2 (X8_title_drops_version_segment (js "2025-06-18"))).
  vm_compute; reflexivity.
Defined.

(** X9.  Every path the flattener yields starts with [../docs/], and every
    section of the artifact starts with the heading [# ../docs/]. *)
Theorem X9_paths_and_headings_below_docs :
  forall (fs : FileSystem) (latestVersion : jsstring)
         (items : list NavigationItem) (basePath pagePath : jsstring),
    In pagePath (extractPagePaths items basePath) ->
    startsWith (js "../docs/") pagePath = true /\
    (forall s, In s (sectionOf fs latestVersion pagePath) ->
               startsWith (js "# ../docs/") s = true).
Proof.
  intros fs v items b p Hin.
  rewrite extractPagePaths_preorder, in_map_iff in Hin.
  destruct Hin as (item & <- & _).
  destruct (fullPath_below_docs b item) as [rest ->].
  split; [reflexivity|].
  intros s; unfold sectionOf.
  destruct (firstRead fs (possiblePaths (js "../docs/" ++ rest)))
    as [[content used]|]; [|intros []].
  destruct (truthy content && truthy used &&
            truthy (cleanMdxContent content)); [|intros []].
  intros [<- | []]; unfold section.
  rewrite pageTitle_keeps_docs_prefix; reflexivity.
Qed.

Lemma X9_paths_and_headings_below_docs_witness :
  startsWith (js "../docs/") (js "../docs/specificationbasic/lifecycle")
    = true /\
  (forall s,
      In s (sectionOf Sample.noFiles (js "2025-06-18")
              (js "../docs/specificationbasic/lifecycle")) ->
      startsWith (js "# ../docs/") s = true).
Proof.
  apply (X9_paths_and_headings_below_docs Sample.noFiles (js "2025-06-18")
           [Nested None [Page (js "/basic/lifecycle")]] []).
  vm_compute; tauto.
Defined.

(* ================================================================== *)
(** ** Further properties: the run and its two artifacts *)

Section Artifacts.

Variable cfg : DocsConfig.
Variable fs : FileSystem.
Variable v : jsstring.
Variable nav : list NavigationItem.
Hypothesis Hv : findLatestSpecVersion cfg = Ok v.
Hypothesis Hn : getLatestSpecNavigation cfg = Ok nav.

(** A run without [--full], in full. *)
Lemma concatenateSpec_basic :
  concatenateSpec false cfg fs =
  mkOutcome 0
    [(js "./mcp-spec.txt",
      join separator (flat_map (sectionOf fs v) (extractPagePaths nav [])))]
    ([(LogLevel, UsingVersion v);
      (LogLevel, FoundNavigation (List.length nav));
      (LogLevel, FoundPages (List.length (extractPagePaths nav [])))] ++
     flat_map (pageEvents fs) (extractPagePaths nav []) ++
     [(LogLevel,
       Concatenated
         (List.length
            (flat_map (sectionOf fs v) (extractPagePaths nav []))));
      (LogLevel, BasicWritten (js "./mcp-spec.txt"));
      (LogLevel,
       BasicSize
         (List.length
            (join separator
               (flat_map (sectionOf fs v) (extractPagePaths nav [])))))]).
Proof.
  unfold concatenateSpec, concatenateSpecBody, bind; rewrite Hv, Hn.
  cbv zeta; rewrite pages_loop; reflexivity.
Qed.

(** A run with [--full] does what the run without it does, then reads the
    schema files and writes the second file. *)
Lemma concatenateSpec_full :
  concatenateSpec true cfg fs =
  mkOutcome 0
    (written (concatenateSpec false cfg fs) ++
     [(js "./mcp-spec-full.txt",
       join separator
         ([join separator
             (flat_map (sectionOf fs v) (extractPagePaths nav []))] ++
          fenced (js "schema.ts") (js "typescript")
            (ts (fst (readSchemaFiles fs v))) ++
          fenced (js "schema.json") (js "json")
            (json (fst (readSchemaFiles fs v)))))])
    (events (concatenateSpec false cfg fs) ++
     snd (readSchemaFiles fs v) ++
     [(LogLevel, FullWritten (js "./mcp-spec-full.txt"));
      (LogLevel,
       FullSize
         (List.length
            (join separator
               ([join separator
                   (flat_map (sectionOf fs v) (extractPagePaths nav []))] ++
                fenced (js "schema.ts") (js "typescript")
                  (ts (fst (readSchemaFiles fs v))) ++
                fenced (js "schema.json") (js "json")
                  (json (fst (readSchemaFiles fs v)))))))]).
Proof.
  rewrite concatenateSpec_basic.
  unfold concatenateSpec, concatenateSpecBody, bind; rewrite Hv, Hn.
  cbv zeta; rewrite pages_loop; cbn [written events app].
  cbn [concatenatedContent processedCount console app Nat.add].
  now rewrite <- !app_assoc.
Qed.

Lemma basic_events_facts :
  In (LogLevel, FoundPages (List.length (extractPagePaths nav [])))
     (events (concatenateSpec false cfg fs)) /\
  In (LogLevel,
      Concatenated
        (List.length (flat_map (sectionOf fs v) (extractPagePaths nav []))))
     (events (concatenateSpec false cfg fs)) /\
  filter isProcessed (events (concatenateSpec false cfg fs)) =
    filter isProcessed (flat_map (pageEvents fs) (extractPagePaths nav [])) /\
  filter isCouldNotFind (events (concatenateSpec false cfg fs)) =
    filter isCouldNotFind
      (flat_map (pageEvents fs) (extractPagePaths nav [])).
Proof.
  rewrite concatenateSpec_basic; cbn [events]; repeat split.
  - apply in_or_app; left; simpl; tauto.
  - apply in_or_app; right; apply in_or_app; right; now left.
  - rewrite !filter_app; simpl; now rewrite app_nil_r.
  - rewrite !filter_app; simpl; now rewrite app_nil_r.
Qed.

Lemma full_events :
  events (concatenateSpec true cfg fs) =
  events (concatenateSpec false cfg fs) ++
  snd (readSchemaFiles fs v) ++
  [(LogLevel, FullWritten (js "./mcp-spec-full.txt"));
   (LogLevel,
    FullSize
      (List.length
         (join separator
            ([join separator
                (flat_map (sectionOf fs v) (extractPagePaths nav []))] ++
             fenced (js "schema.ts") (js "typescript")
               (ts (fst (readSchemaFiles fs v))) ++
             fenced (js "schema.json") (js "json")
               (json (fst (readSchemaFiles fs v)))))))].
Proof. rewrite concatenateSpec_full; reflexivity. Qed.

End Artifacts.

Section Counting.

Variable fs : FileSystem.
Variable v : jsstring.

(** A page gives one section and one [Processed] line, or one warning, or
    nothing. *)
Lemma page_accounting (p : jsstring) :
  List.length (sectionOf fs v p) =
    List.length (filter isProcessed (pageEvents fs p)) /\
  List.length (sectionOf fs v p) +
    List.length (filter isCouldNotFind (pageEvents fs p)) <= 1.
Proof.
  unfold sectionOf, pageEvents.
  destruct (firstRead fs (possiblePaths p)) as [[content used]|];
    [destruct (truthy content && truthy used);
       [destruct (truthy (cleanMdxContent content))|]|];
    simpl; lia.
Qed.

Lemma pages_accounting (l : list jsstring) :
  List.length (flat_map (sectionOf fs v) l) =
    List.length (filter isProcessed (flat_map (pageEvents fs) l)) /\
  List.length (flat_map (sectionOf fs v) l) +
    List.length (filter isCouldNotFind (flat_map (pageEvents fs) l))
    <= List.length l.
Proof.
  induction l as [|p l [IH1 IH2]]; simpl; [lia|].
  destruct (page_accounting p) as [H1 H2].
  rewrite !filter_app, !length_app; lia.
Qed.

Lemma sectionOf_truthy (p s : jsstring) :
  In s (sectionOf fs v p) -> truthy s = true.
Proof.
  unfold sectionOf.
  destruct (firstRead fs (possiblePaths p)) as [[content used]|];
    [|intros []].
  destruct (truthy content && truthy used &&
            truthy (cleanMdxContent content)); [|intros []].
  intros [<- | []]; reflexivity.
Qed.

End Counting.

Lemma join_cons (sep x : jsstring) (rest : list jsstring) :
  join sep (x :: rest) =
  x ++ match rest with
       | [] => []
       | _ :: _ => sep ++ join sep rest
       end.
Proof. destruct rest; simpl; [now rewrite app_nil_r | reflexivity]. Qed.

Lemma join_empty (sep : jsstring) (l : list jsstring) :
  (forall s, In s l -> truthy s = true) ->
  (join sep l = [] <-> l = []).
Proof.
  intros H; split; [|intros ->; reflexivity].
  destruct l as [|x rest]; [reflexivity|].
  rewrite join_cons; intros Hj.
  pose proof (H x (or_introl eq_refl)) as Hx.
  destruct x; [discriminate | discriminate].
Qed.

(** X10.  The summary of a run adds up: the count of the final message is
    the number of [Processed] lines, the number of pages found is the
    number of leaf references of the selected group, and the processed
    pages and the missing-page warnings together never exceed the pages
    found. *)
Theorem X10_summary_adds_up :
  forall (includeFull : bool) (cfg : DocsConfig) (fs : FileSystem)
         (v : jsstring) (nav : list NavigationItem),
    findLatestSpecVersion cfg = Ok v ->
    getLatestSpecNavigation cfg = Ok nav ->
    let log := events (concatenateSpec includeFull cfg fs) in
    In (LogLevel, FoundPages (List.length (preorder nav))) log /\
    In (LogLevel, Concatenated (List.length (filter isProcessed log))) log /\
    List.length (filter isProcessed log) +
      List.length (filter isCouldNotFind log) <= List.length (preorder nav).
Proof.
  intros includeFull cfg fs v nav Hv Hn; cbv zeta.
  destruct (pages_accounting fs v (extractPagePaths nav [])) as [H1 H2].
  assert (Hlen : List.length (extractPagePaths nav []) =
                 List.length (preorder nav))
    by (now rewrite extractPagePaths_preorder, length_map).
  assert (Hschema :
            filter isProcessed (snd (readSchemaFiles fs v)) = [] /\
            filter isCouldNotFind (snd (readSchemaFiles fs v)) = []).
  { unfold readSchemaFiles, readSchema; cbv zeta.
    destruct (fs (Path.join2 (js "../schema/" ++ v) (js "schema.ts")));
      destruct (fs (Path.join2 (js "../schema/" ++ v) (js "schema.json")));
      split; reflexivity. }
  destruct Hschema as [Hs1 Hs2].
  destruct (basic_events_facts cfg fs v nav Hv Hn) as (Hf & Hc & Hp & Hw).
  rewrite <- Hlen.
  destruct includeFull.
  - rewrite (full_events cfg fs v nav Hv Hn).
    rewrite !filter_app, Hs1, Hs2, Hp, Hw; simpl filter.
    rewrite !app_nil_r, <- H1.
    repeat split.
    + apply in_or_app; now left.
    + apply in_or_app; now left.
    + exact H2.
  - rewrite Hp, Hw, <- H1; repeat split; auto.
Qed.

Lemma X10_summary_adds_up_witness :
  In (LogLevel, FoundPages 2)
     (events (concatenateSpec false Sample.relativeConfig Sample.toolsOnly)) /\
  In (LogLevel, Concatenated 1)
     (events (concatenateSpec false Sample.relativeConfig Sample.toolsOnly)) /\
  1 + 1 <= 2.
Proof.
  apply (X10_summary_adds_up false Sample.relativeConfig Sample.toolsOnly
           (js "2025-06-18")
           [Page Sample.lifecyclePage; Page Sample.toolsPage]).
  - vm_compute; reflexivity.
  - vm_compute; reflexivity.
Defined.

(** X13.  With [--full] and both schema files there and not empty, the
    full artifact is the primary artifact followed by the section of
    [schema.ts] and then the section of [schema.json], each behind a
    separator and each a fenced block under its heading. *)
Theorem X13_full_with_both_schemas :
  forall (cfg : DocsConfig) (fs : FileSystem) (v : jsstring)
         (nav : list NavigationItem) (tsText jsonText : jsstring),
    findLatestSpecVersion cfg = Ok v ->
    getLatestSpecNavigation cfg = Ok nav ->
    fs (schemaPath v (js "schema.ts")) = Contents tsText ->
    tsText <> [] ->
    fs (schemaPath v (js "schema.json")) = Contents jsonText ->
    jsonText <> [] ->
    exists base,
      primaryArtifact (concatenateSpec true cfg fs) = Some base /\
      fullArtifact (concatenateSpec true cfg fs) =
        Some (base ++ separator ++
              schemaSection (js "schema.ts") (js "typescript") tsText ++
              separator ++
              schemaSection (js "schema.json") (js "json") jsonText).
Proof.
  intros cfg fs v nav tsT jsonT Hv Hn Hts Hnts Hjson Hnjson.
  rewrite (concatenateSpec_full cfg fs v nav Hv Hn),
    (concatenateSpec_basic cfg fs v nav Hv Hn).
  unfold readSchemaFiles, readSchema; cbv zeta.
  unfold schemaPath in Hts, Hjson; rewrite Hts, Hjson.
  destruct tsT as [|c1 t1]; [congruence|].
  destruct jsonT as [|c2 t2]; [congruence|].
  eexists; split; reflexivity.
Qed.

Lemma X13_full_with_both_schemas_witness :
  exists base,
    primaryArtifact
      (concatenateSpec true Sample.relativeConfig
         (Sample.withSchemas Sample.tsText Sample.jsonText)) = Some base /\
    fullArtifact
      (concatenateSpec true Sample.relativeConfig
         (Sample.withSchemas Sample.tsText Sample.jsonText)) =
      Some (base ++ separator ++
            schemaSection (js "schema.ts") (js "typescript") Sample.tsText ++
            separator ++
            schemaSection (js "schema.json") (js "json") Sample.jsonText).
Proof.
  apply (X13_full_with_both_schemas Sample.relativeConfig
           (Sample.withSchemas Sample.tsText Sample.jsonText)
           (js "2025-06-18")
           [Page Sample.lifecyclePage; Page Sample.toolsPage]).
  - vm_compute; reflexivity.
  - vm_compute; reflexivity.
  - vm_compute; reflexivity.
  - vm_compute; discriminate.
  - vm_compute; reflexivity.
  - vm_compute; discriminate.
Defined.


(* ================================================================== *)
(** ** Further properties: what a run depends on *)

Section Dependence.

Lemma find_first (A : Type) (f : A -> bool) (before after : list A) (x : A) :
  (forall y, In y before -> f y = false) -> f x = true ->
  find f (before ++ x :: after) = Some x.
Proof.
  intros Hb Hx; induction before as [|b before IH]; simpl.
  - now rewrite Hx.
  - rewrite (Hb b (or_introl eq_refl)).
    apply IH; intros y Hy; apply Hb; now right.
Qed.

Lemma firstRead_agree (fs fs' : FileSystem) (l : list jsstring) :
  (forall c, In c l -> fs c = fs' c) -> firstRead fs l = firstRead fs' l.
Proof.
  induction l as [|c l IH]; intros H; simpl; [reflexivity|].
  rewrite <- (H c (or_introl eq_refl)).
  rewrite IH by (intros c' Hc'; apply H; now right).
  reflexivity.
Qed.

Lemma pages_agree (fs fs' : FileSystem) (v : jsstring) (l : list jsstring) :
  (forall p c, In p l -> In c (possiblePaths p) -> fs c = fs' c) ->
  forall st,
    fold_left (processPage fs v) l st = fold_left (processPage fs' v) l st.
Proof.
  induction l as [|p l IH]; intros H st; simpl; [reflexivity|].
  assert (Hp : processPage fs v st p = processPage fs' v st p).
  { unfold processPage.
    rewrite (firstRead_agree fs fs' (possiblePaths p))
      by (intros c Hc; apply (H p c); [now left | exact Hc]).
    reflexivity. }
  rewrite Hp; apply IH; intros p' c Hin; apply H; now right.
Qed.

Lemma split_slash_nonempty (s cur : jsstring) : Path.split_slash cur s <> [].
Proof.
  revert cur; induction s as [|c s IH]; intros cur; simpl; [discriminate|].
  destruct (N.eqb c SLASH); [discriminate | apply IH].
Qed.

(** Joining the segments with slashes gives the string back. *)
Lemma split_slash_join (s cur : jsstring) :
  join [SLASH] (Path.split_slash cur s) = rev cur ++ s.
Proof.
  revert cur; induction s as [|c s IH]; intros cur.
  - simpl; now rewrite app_nil_r.
  - simpl Path.split_slash; destruct (N.eqb c SLASH) eqn:Hc.
    + apply N.eqb_eq in Hc; subst c.
      rewrite join_cons, IH.
      destruct (Path.split_slash [] s) eqn:Hs;
        [now apply split_slash_nonempty in Hs | reflexivity].
    + rewrite IH; simpl; now rewrite <- app_assoc.
Qed.

Lemma split_slash_trailing (s cur : jsstring) :
  In [] (Path.split_slash cur (s ++ [SLASH])).
Proof.
  revert cur; induction s as [|c s IH]; intros cur; simpl.
  - right; now left.
  - destruct (N.eqb c SLASH); [right|]; apply IH.
Qed.

Lemma push_plain_segments (allowAboveRoot : bool) (segs stack : list jsstring) :
  forallb plainSegment segs = true ->
  fold_left (Path.push_segment allowAboveRoot) segs stack =
  rev segs ++ stack.
Proof.
  revert stack; induction segs as [|seg segs IH]; intros stack H;
    simpl in *; [reflexivity|].
  apply andb_true_iff in H; destruct H as [Hseg Hrest].
  rewrite IH by exact Hrest.
  unfold plainSegment in Hseg; unfold Path.push_segment.
  destruct (str_eqb seg []), (str_eqb seg [DOT]),
    (str_eqb seg [DOT; DOT]); try discriminate.
  simpl; now rewrite <- app_assoc.
Qed.

Lemma plainReference_normalize (item : jsstring) :
  plainReference item = true ->
  item <> [] /\ startsWith [SLASH] item = false /\
  Path.normalize item = item.
Proof.
  unfold plainReference; intros H.
  assert (Hne : item <> []) by (intros ->; discriminate).
  assert (Habs : startsWith [SLASH] item = false).
  { destruct item as [|c s]; [reflexivity|].
    change (startsWith [SLASH] (c :: s)) with (N.eqb SLASH c && true).
    destruct (N.eqb SLASH c) eqn:Hc; [|reflexivity].
    apply N.eqb_eq in Hc; subst c; simpl in H; discriminate. }
  assert (Htrail : startsWith [SLASH] (rev item) = false).
  { destruct (rev item) as [|y t] eqn:Hr; [reflexivity|].
    change (startsWith [SLASH] (y :: t)) with (N.eqb SLASH y && true).
    destruct (N.eqb SLASH y) eqn:Hy; [|reflexivity].
    apply N.eqb_eq in Hy; subst y; exfalso.
    assert (Hi : item = rev t ++ [SLASH])
      by (rewrite <- (rev_involutive item), Hr; reflexivity).
    rewrite Hi, forallb_forall in H.
    specialize (H [] (split_slash_trailing (rev t) [])); discriminate. }
  assert (Hnorm : Path.normalizeString true item = item).
  { unfold Path.normalizeString.
    rewrite push_plain_segments by exact H.
    now rewrite app_nil_r, rev_involutive, split_slash_join. }
  repeat split; auto.
  destruct item as [|c s]; [congruence|].
  unfold Path.normalize; cbv zeta.
  rewrite Habs, Htrail; simpl negb; now rewrite Hnorm.
Qed.

End Dependence.

(** X15.  Only the first tab labelled like the Specification tab counts:
    the tabs in front of it, and every tab behind it, change nothing in
    the run. *)
Theorem X15_only_first_specification_tab :
  forall (includeFull : bool) (before after : list Tab) (t : Tab)
         (fs : FileSystem),
    (forall t', In t' before -> isSpecificationTab t' = false) ->
    isSpecificationTab t = true ->
    concatenateSpec includeFull (mkDocsConfig (before ++ t :: after)) fs =
    concatenateSpec includeFull (mkDocsConfig [t]) fs.
Proof.
  intros includeFull before after t fs Hb Ht.
  unfold concatenateSpec, concatenateSpecBody, bind,
    findLatestSpecVersion, getLatestSpecNavigation.
  cbn [tabs].
  rewrite (find_first Tab isSpecificationTab before after t Hb Ht).
  cbn [find]; rewrite Ht; reflexivity.
Qed.

Lemma X15_only_first_specification_tab_witness :
  concatenateSpec true Sample.twoTabsConfig
    (Sample.relativeFiles (document Sample.meta1 Sample.body1)
       (document Sample.meta2 Sample.body2)) =
  concatenateSpec true Sample.relativeConfig
    (Sample.relativeFiles (document Sample.meta1 Sample.body1)
       (document Sample.meta2 Sample.body2)).
Proof.
  apply (X15_only_first_specification_tab true
           [mkTab (js "Documentation")
              [mkGroup (js "2099-01-01 (Latest)") [Page (js "docs/intro")]]]
           [mkTab (js "specification")
              [mkGroup (js "2030-01-01 (Latest)") [Page (js "other")]]]
           (mkTab (js "Specification")
              [mkGroup Sample.latestLabel
                 [Page Sample.lifecyclePage; Page Sample.toolsPage]])).
  - intros t' [<- | []]; vm_compute; reflexivity.
  - vm_compute; reflexivity.
Defined.

(** X16.  A run reads nothing but the candidates of its page paths and,
    with [--full], the two schema files: two file systems that agree on
    these give the same exit status, the same files and the same
    console. *)
Theorem X16_run_reads_only_its_candidates :
  forall (includeFull : bool) (cfg : DocsConfig) (fs fs' : FileSystem),
    (forall nav p c,
        getLatestSpecNavigation cfg = Ok nav ->
        In p (extractPagePaths nav []) ->
        In c (possiblePaths p) -> fs c = fs' c) ->
    (forall v file,
        includeFull = true ->
        findLatestSpecVersion cfg = Ok v ->
        In file [js "schema.ts"; js "schema.json"] ->
        fs (schemaPath v file) = fs' (schemaPath v file)) ->
    concatenateSpec includeFull cfg fs = concatenateSpec includeFull cfg fs'.
Proof.
  intros includeFull cfg fs fs' Hpages Hschema.
  unfold concatenateSpec, concatenateSpecBody, bind.
  destruct (findLatestSpecVersion cfg) as [v|e]; [|reflexivity].
  destruct (getLatestSpecNavigation cfg) as [nav|e]; [|reflexivity].
  cbv zeta.
  rewrite (pages_agree fs fs' v (extractPagePaths nav []))
    by (intros p c; now apply Hpages).
  destruct includeFull; [|reflexivity].
  unfold readSchemaFiles, readSchema; cbv zeta.
  unfold schemaPath in Hschema.
  rewrite (Hschema v (js "schema.ts") eq_refl eq_refl)
    by (simpl; tauto).
  rewrite (Hschema v (js "schema.json") eq_refl eq_refl)
    by (simpl; tauto).
  reflexivity.
Qed.

Lemma X16_run_reads_only_its_candidates_witness :
  concatenateSpec false Sample.relativeConfig
    (Sample.withSchemas Sample.tsText Sample.jsonText) =
  concatenateSpec false Sample.relativeConfig
    (Sample.relativeFiles (document Sample.meta1 Sample.body1)
       (document Sample.meta2 Sample.body2)).
Proof.
  apply (X16_run_reads_only_its_candidates false Sample.relativeConfig).
  - intros nav p c Hn Hp Hc.
    vm_compute in Hn; inversion Hn; subst nav; clear Hn.
    vm_compute in Hp.
    destruct Hp as [<- | [<- | []]];
      vm_compute in Hc; destruct Hc as [<- | [<- | [<- | []]]];
      vm_compute; reflexivity.
  - intros v file H; discriminate.
Defined.

(** X17.  A reference whose segments are all names (it does not start or
    end with a slash and has no empty, [.] or [..] segment) is taken below
    the documentation directory as it is: its path is [../docs/] followed
    by the reference. *)
Theorem X17_plain_reference_path :
  forall item : jsstring,
    plainReference item = true ->
    fullPath [] item = js "../docs/" ++ item /\
    extractPagePaths [Page item] [] = [js "../docs/" ++ item].
Proof.
  intros item H.
  destruct (plainReference_normalize item H) as (Hne & Habs & Hnorm).
  assert (Hf : fullPath [] item = js "../docs/" ++ item).
  { unfold fullPath.
    change (js "/") with [SLASH]; rewrite Habs.
    destruct item as [|c s]; [congruence|].
    unfold Path.join2; now rewrite Hnorm. }
  split; [exact Hf|].
  unfold extractPagePaths; simpl; now rewrite Hf.
Qed.

Lemma X17_plain_reference_path_witness :
  fullPath [] Sample.lifecyclePage = js "../docs/" ++ Sample.lifecyclePage /\
  extractPagePaths [Page Sample.lifecyclePage] [] =
    [js "../docs/" ++ Sample.lifecyclePage].
Proof.
  apply (X17_plain_reference_path Sample.lifecyclePage).
  vm_compute; reflexivity.
Defined.

(* ================================================================== *)
(** ** The whole run: configuration, pages and output files *)

Section WholeRun.

Variable env : Environment.
Variable cfg : DocsConfig.
Hypothesis Hload : docsJson env = Loaded cfg.

(** With the configuration loaded and nothing rejecting a write, the whole
    function is the path through its [try]. *)
Lemma concatenateSpecIn_writable (includeFull : bool) :
  writeError env (js "./mcp-spec.txt") = None ->
  (includeFull = true -> writeError env (js "./mcp-spec-full.txt") = None) ->
  concatenateSpecIn includeFull env =
  concatenateSpec includeFull cfg (files env).
Proof.
  intros Hbase Hfull.
  unfold concatenateSpecIn, concatenateSpec, concatenateSpecBody, bind.
  rewrite Hload.
  destruct (findLatestSpecVersion cfg) as [v|e]; [|reflexivity].
  destruct (getLatestSpecNavigation cfg) as [nav|e]; [|reflexivity].
  cbv zeta; rewrite Hbase.
  destruct includeFull; [|reflexivity].
  now rewrite (Hfull eq_refl).
Qed.

Lemma concatenateSpecIn_throws (includeFull : bool) (e : Error) :
  findLatestSpecVersion cfg = Throw e \/
  (exists v, findLatestSpecVersion cfg = Ok v /\
             getLatestSpecNavigation cfg = Throw e) ->
  concatenateSpecIn includeFull env = abort e.
Proof.
  unfold concatenateSpecIn; rewrite Hload.
  intros [Hv | (v & Hv & Hn)]; rewrite Hv; [reflexivity|].
  now rewrite Hn.
Qed.

Variable v : jsstring.
Variable nav : list NavigationItem.
Hypothesis Hv : findLatestSpecVersion cfg = Ok v.
Hypothesis Hn : getLatestSpecNavigation cfg = Ok nav.

Lemma basic_events_loop :
  events (concatenateSpec false cfg (files env)) =
  loopEvents (files env) v nav ++
  [(LogLevel,
    Concatenated
      (List.length
         (flat_map (sectionOf (files env) v) (extractPagePaths nav []))));
   (LogLevel, BasicWritten (js "./mcp-spec.txt"));
   (LogLevel,
    BasicSize
      (List.length
         (join separator
            (flat_map (sectionOf (files env) v)
               (extractPagePaths nav [])))))].
Proof.
  rewrite (concatenateSpec_basic cfg (files env) v nav Hv Hn).
  unfold loopEvents; cbn [events]; now rewrite <- app_assoc.
Qed.

(** The run once the version and the pages are selected, by what the two
    writes do. *)
Lemma concatenateSpecIn_selected (includeFull : bool) :
  concatenateSpecIn includeFull env =
  match writeError env (js "./mcp-spec.txt") with
  | Some msg =>
      mkOutcome 1 []
        (loopEvents (files env) v nav ++ [(ErrorLevel, ErrorMessage msg)])
  | None =>
      if includeFull then
        match writeError env (js "./mcp-spec-full.txt") with
        | Some msg =>
            mkOutcome 1 (written (concatenateSpec false cfg (files env)))
              (events (concatenateSpec false cfg (files env)) ++
               snd (readSchemaFiles (files env) v) ++
               [(ErrorLevel, ErrorMessage msg)])
        | None => concatenateSpec true cfg (files env)
        end
      else concatenateSpec false cfg (files env)
  end.
Proof.
  destruct (writeError env (js "./mcp-spec.txt")) as [msg|] eqn:Hbase.
  - unfold concatenateSpecIn; rewrite Hload, Hv, Hn; cbv zeta.
    rewrite Hbase, pages_loop; reflexivity.
  - destruct includeFull.
    + destruct (writeError env (js "./mcp-spec-full.txt")) as [msg|] eqn:Hfull.
      * rewrite (concatenateSpec_basic cfg (files env) v nav Hv Hn).
        unfold concatenateSpecIn; rewrite Hload, Hv, Hn; cbv zeta.
        rewrite Hbase, Hfull, pages_loop.
        cbn [written events concatenatedContent processedCount console
             app Nat.add].
        now rewrite <- !app_assoc.
      * apply concatenateSpecIn_writable; auto.
    + apply concatenateSpecIn_writable; [exact Hbase | discriminate].
Qed.

(** Whatever the writes do, the console starts with what the loop over the
    pages has logged. *)
Lemma loopEvents_logged (includeFull : bool) (e : Event) :
  In e (loopEvents (files env) v nav) ->
  In e (events (concatenateSpecIn includeFull env)).
Proof.
  intros He; rewrite concatenateSpecIn_selected.
  assert (Hb : In e (events (concatenateSpec false cfg (files env))))
    by (rewrite basic_events_loop; apply in_or_app; now left).
  destruct (writeError env (js "./mcp-spec.txt")).
  - cbn [events]; apply in_or_app; now left.
  - destruct includeFull; [|exact Hb].
    destruct (writeError env (js "./mcp-spec-full.txt")).
    + cbn [events]; apply in_or_app; now left.
    + rewrite (full_events cfg (files env) v nav Hv Hn).
      apply in_or_app; now left.
Qed.

End WholeRun.

Section ExitStatus.

Lemma latestGroup_some (gs : list Group) :
  (exists g, In g gs /\ isMarked (group g) = true) ->
  exists g, latestGroup gs = Some g.
Proof.
  induction gs as [|g gs IH]; intros (g0 & Hin & Hm); [destruct Hin|].
  simpl; destruct (isMarked (group g)) eqn:Hg; [now exists g|].
  apply IH; destruct Hin as [<- | Hin]; [congruence | eauto].
Qed.

(** A version that is returned is the date of a group of the tab. *)
Lemma findLatestSpecVersion_dated (cfg : DocsConfig) (specTab : Tab)
    (v : jsstring) :
  find isSpecificationTab (tabs cfg) = Some specTab ->
  findLatestSpecVersion cfg = Ok v ->
  exists g, In g (groups specTab) /\ matchDate (group g) = Some v.
Proof.
  intros Htab; unfold findLatestSpecVersion; rewrite Htab.
  destruct (markedDate (groups specTab)) as [d|] eqn:Hmd.
  - intros H; inversion H; subst.
    destruct (markedDate_sound (groups specTab) v Hmd) as (g & Hin & _ & Hd).
    eauto.
  - destruct (dateGroups (groups specTab)) as [|d r] eqn:Hdg; [discriminate|].
    intros H; inversion H; subst.
    destruct (greatest_first _ r v Hdg) as [Hd _].
    apply filterBoolean_dates in Hd; exact Hd.
Qed.

(** [findLatestSpecVersion] throws for want of a version exactly when no
    group of the Specification tab is dated. *)
Lemma noDatedGroup_throws (cfg : DocsConfig) :
  noDatedGroup cfg <-> findLatestSpecVersion cfg = Throw NoVersionedGroups.
Proof.
  unfold noDatedGroup, findLatestSpecVersion; split.
  - intros (specTab & Htab & Hnone); rewrite Htab.
    rewrite markedDate_none by (intros g Hin _; now apply Hnone).
    now rewrite dateGroups_empty.
  - destruct (find isSpecificationTab (tabs cfg)) as [specTab|] eqn:Htab;
      [|discriminate].
    destruct (markedDate (groups specTab)) as [d|] eqn:Hmd; [discriminate|].
    destruct (dateGroups (groups specTab)) as [|d r] eqn:Hdg;
      [|discriminate].
    intros _; exists specTab; split; [reflexivity|].
    intros g Hin.
    destruct (matchDate (group g)) as [d|] eqn:Hd; [|reflexivity].
    destruct (dateGroups_greatest (groups specTab)) as (g' & d' & r & H & _).
    + exists g; split; [exact Hin | congruence].
    + rewrite Hdg in H; discriminate.
Qed.

(** The exit status of a run on a loaded configuration in which a dated
    group comes with a marked one. *)
Lemma exitStatus_causes (includeFull : bool) (env : Environment)
    (cfg : DocsConfig) :
  docsJson env = Loaded cfg ->
  markedWhenDated cfg ->
  (exitStatus (concatenateSpecIn includeFull env) <> 0%N <->
   missingTab cfg \/ noDatedGroup cfg \/ outputUnwritable includeFull env).
Proof.
  intros Hload Hmarked.
  destruct (find isSpecificationTab (tabs cfg)) as [specTab|] eqn:Htab.
  - destruct (findLatestSpecVersion cfg) as [v|e] eqn:Hv.
    + destruct (findLatestSpecVersion_dated cfg specTab v Htab Hv)
        as (g & Hin & Hd).
      assert (Hnone : ~ noDatedGroup cfg).
      { intros (specTab' & Htab' & Hnone).
        rewrite Htab in Htab'; inversion Htab'; subst specTab'.
        rewrite (Hnone g Hin) in Hd; discriminate. }
      assert (Hmiss : ~ missingTab cfg)
        by (unfold missingTab; rewrite Htab; discriminate).
      destruct (latestGroup_some (groups specTab)) as [g' Hg'].
      { apply (Hmarked specTab Htab); exists g; split; [exact Hin|].
        congruence. }
      assert (Hn : getLatestSpecNavigation cfg = Ok (pages g'))
        by (unfold getLatestSpecNavigation; now rewrite Htab, Hg').
      rewrite (concatenateSpecIn_selected env cfg Hload v (pages g') Hv Hn).
      unfold outputUnwritable.
      destruct (writeError env (js "./mcp-spec.txt")) as [m|].
      * split; [intros _; right; right; left; discriminate
               | intros _; discriminate].
      * destruct includeFull.
        -- destruct (writeError env (js "./mcp-spec-full.txt")) as [m|].
           ++ split; [intros _; right; right; right; split;
                        [reflexivity | discriminate]
                     | intros _; discriminate].
           ++ rewrite (concatenateSpec_full cfg (files env) v (pages g')
                         Hv Hn); cbn [exitStatus].
              split; [congruence|].
              intros [H | [H | [H | [_ H]]]]; tauto.
        -- rewrite (concatenateSpec_basic cfg (files env) v (pages g')
                      Hv Hn); cbn [exitStatus].
           split; [congruence|].
           intros [H | [H | [H | [H _]]]]; try tauto; discriminate.
    + rewrite (concatenateSpecIn_throws env cfg Hload includeFull e)
        by now left.
      split; [intros _ | intros _; discriminate].
      right; left; apply noDatedGroup_throws.
      revert Hv; unfold findLatestSpecVersion; rewrite Htab.
      destruct (markedDate (groups specTab)); [discriminate|].
      destruct (dateGroups (groups specTab)); [|discriminate].
      reflexivity.
  - rewrite (concatenateSpecIn_throws env cfg Hload includeFull
               SpecTabNotFound)
      by (left; unfold findLatestSpecVersion; now rewrite Htab).
    split; [intros _; now left | intros _; discriminate].
Qed.

End ExitStatus.

(** C9.  In a run whose configuration is loaded and whose version and
    pages are selected, a page path without a readable candidate is named
    in a warning on the console; when [./mcp-spec.txt] can be written the
    primary artifact is the separator-joined sequence of the sections of
    the other pages in navigation order; and when the output files can be
    written the run ends with status 0.  A run whose configuration cannot
    be loaded ends with status 1.  On a loaded configuration in which a
    dated group comes with a marked one, the status is not 0 exactly when
    the Specification tab is missing, or no group of it is dated, or an
    output file cannot be written. *)
Theorem C9_missing_page_resilience :
  (forall (includeFull : bool) (env : Environment) (cfg : DocsConfig)
          (v : jsstring) (nav : list NavigationItem)
          (before after : list jsstring) (P : jsstring),
      docsJson env = Loaded cfg ->
      findLatestSpecVersion cfg = Ok v ->
      getLatestSpecNavigation cfg = Ok nav ->
      extractPagePaths nav [] = before ++ P :: after ->
      firstRead (files env) (possiblePaths P) = None ->
      In (WarnLevel, CouldNotFindFile P)
         (events (concatenateSpecIn includeFull env)) /\
      (writeError env (js "./mcp-spec.txt") = None ->
       primaryArtifact (concatenateSpecIn includeFull env) =
         Some (join separator
                 (flat_map (sectionOf (files env) v) before ++
                  flat_map (sectionOf (files env) v) after))) /\
      (~ outputUnwritable includeFull env ->
       exitStatus (concatenateSpecIn includeFull env) = 0%N)) /\
  (forall (includeFull : bool) (env : Environment) (msg : jsstring),
      docsJson env = LoadFailed msg ->
      exitStatus (concatenateSpecIn includeFull env) = 1%N) /\
  (forall (includeFull : bool) (env : Environment) (cfg : DocsConfig),
      docsJson env = Loaded cfg ->
      markedWhenDated cfg ->
      (exitStatus (concatenateSpecIn includeFull env) <> 0%N <->
       missingTab cfg \/ noDatedGroup cfg \/
       outputUnwritable includeFull env)).
Proof.
  split; [|split].
  - intros includeFull env cfg v nav before after P
      Hload Hv Hn Hpaths Hmiss.
    destruct (sectionOf_miss (files env) v P Hmiss) as [Hsec Hwarn].
    split; [|split].
    + apply (loopEvents_logged env cfg Hload v nav Hv Hn).
      unfold loopEvents; apply in_or_app; right.
      rewrite Hpaths, flat_map_app; apply in_or_app; right.
      simpl; rewrite Hwarn; now left.
    + intros Hbase.
      rewrite (concatenateSpecIn_selected env cfg Hload v nav Hv Hn), Hbase.
      assert (Hart :
                primaryArtifact (concatenateSpec false cfg (files env)) =
                Some (join separator
                        (flat_map (sectionOf (files env) v) before ++
                         flat_map (sectionOf (files env) v) after))).
      { rewrite (concatenateSpec_basic cfg (files env) v nav Hv Hn).
        cbn [primaryArtifact written].
        rewrite Hpaths, flat_map_app; simpl; now rewrite Hsec. }
      destruct includeFull; [|exact Hart].
      destruct (writeError env (js "./mcp-spec-full.txt")).
      * rewrite <- Hart.
        rewrite (concatenateSpec_basic cfg (files env) v nav Hv Hn).
        reflexivity.
      * rewrite <- Hart.
        rewrite (concatenateSpec_full cfg (files env) v nav Hv Hn),
          (concatenateSpec_basic cfg (files env) v nav Hv Hn).
        reflexivity.
    + intros Hw; unfold outputUnwritable in Hw.
      rewrite (concatenateSpecIn_selected env cfg Hload v nav Hv Hn).
      destruct (writeError env (js "./mcp-spec.txt"));
        [exfalso; apply Hw; left; discriminate|].
      destruct includeFull.
      * destruct (writeError env (js "./mcp-spec-full.txt"));
          [exfalso; apply Hw; right; split; [reflexivity | discriminate]|].
        now rewrite (concatenateSpec_full cfg (files env) v nav Hv Hn).
      * now rewrite (concatenateSpec_basic cfg (files env) v nav Hv Hn).
  - intros includeFull env msg Hload.
    unfold concatenateSpecIn; now rewrite Hload.
  - apply exitStatus_causes.
Qed.

Lemma C9_missing_page_resilience_witness :
  In (WarnLevel, CouldNotFindFile (js "../docs/" ++ Sample.lifecyclePage))
     (events (concatenateSpecIn false
                (Sample.healthy Sample.relativeConfig Sample.toolsOnly))) /\
  primaryArtifact
    (concatenateSpecIn false
       (Sample.healthy Sample.relativeConfig Sample.toolsOnly)) =
    Some (js "# ../docs/server/tools" ++ [LF; LF] ++ Sample.body2) /\
  exitStatus
    (concatenateSpecIn false
       (Sample.healthy Sample.relativeConfig Sample.toolsOnly)) = 0%N.
Proof.
  destruct (proj1 C9_missing_page_resilience false
              (Sample.healthy Sample.relativeConfig Sample.toolsOnly)
              Sample.relativeConfig (js "2025-06-18")
              [Page Sample.lifecyclePage; Page Sample.toolsPage]
              [] [js "../docs/" ++ Sample.toolsPage]
              (js "../docs/" ++ Sample.lifecyclePage))
    as (Hw & Hart & H0).
  - reflexivity.
  - vm_compute; reflexivity.
  - vm_compute; reflexivity.
  - vm_compute; reflexivity.
  - vm_compute; reflexivity.
  - split; [exact Hw|]; split.
    + rewrite Hart by reflexivity; vm_compute; reflexivity.
    + apply H0; intros [H | [H _]]; [apply H; reflexivity | discriminate].
Defined.

(** C9, as the design document words it, fails.  The lifecycle page is
    missing and the output file cannot be written: the run ends with
    status 1, although the Specification tab is there and the version is
    resolved.  A run without a readable configuration ends with status 1
    as well.  And with two dated groups of which none is marked the
    version is resolved and the run ends with status 1. *)
Lemma C9_counterexample :
  (firstRead Sample.toolsOnly
     (possiblePaths (js "../docs/" ++ Sample.lifecyclePage)) = None /\
   find isSpecificationTab (tabs Sample.relativeConfig) <> None /\
   findLatestSpecVersion Sample.relativeConfig = Ok (js "2025-06-18") /\
   getLatestSpecNavigation Sample.relativeConfig =
     Ok [Page Sample.lifecyclePage; Page Sample.toolsPage] /\
   exitStatus
     (concatenateSpecIn false
        (Sample.readOnly Sample.relativeConfig Sample.toolsOnly)) = 1%N) /\
  exitStatus (concatenateSpecIn false Sample.noConfig) = 1%N /\
  (find isSpecificationTab (tabs Sample.unmarkedConfig) <> None /\
   findLatestSpecVersion Sample.unmarkedConfig = Ok (js "2025-06-18") /\
   exitStatus
     (concatenateSpecIn false
        (Sample.healthy Sample.unmarkedConfig Sample.noFiles)) = 1%N).
Proof.
  repeat split; vm_compute; first [reflexivity | discriminate].
Qed.

(** X11.  In a run whose configuration is loaded and whose version and
    pages are selected: when [./mcp-spec.txt] can be written the primary
    artifact is written, it is the empty text exactly when no page was
    processed, and the status is 0 unless [--full] is given and
    [./mcp-spec-full.txt] cannot be written; when [./mcp-spec.txt] cannot
    be written nothing is written, the message of the error goes to
    [console.error] and the status is 1. *)
Theorem X11_empty_artifact :
  forall (includeFull : bool) (env : Environment) (cfg : DocsConfig)
         (v : jsstring) (nav : list NavigationItem),
    docsJson env = Loaded cfg ->
    findLatestSpecVersion cfg = Ok v ->
    getLatestSpecNavigation cfg = Ok nav ->
    (writeError env (js "./mcp-spec.txt") = None ->
     (exists text,
         primaryArtifact (concatenateSpecIn includeFull env) = Some text /\
         (text = [] <->
          filter isProcessed
            (events (concatenateSpecIn includeFull env)) = [])) /\
     (exitStatus (concatenateSpecIn includeFull env) = 0%N <->
      ~ (includeFull = true /\
         writeError env (js "./mcp-spec-full.txt") <> None))) /\
    (forall msg,
        writeError env (js "./mcp-spec.txt") = Some msg ->
        exitStatus (concatenateSpecIn includeFull env) = 1%N /\
        written (concatenateSpecIn includeFull env) = [] /\
        In (ErrorLevel, ErrorMessage msg)
           (events (concatenateSpecIn includeFull env))).
Proof.
  intros includeFull env cfg v nav Hload Hv Hn.
  rewrite (concatenateSpecIn_selected env cfg Hload v nav Hv Hn).
  split.
  - intros Hbase; rewrite Hbase.
    destruct (pages_accounting (files env) v (extractPagePaths nav []))
      as [H1 _].
    destruct (basic_events_facts cfg (files env) v nav Hv Hn)
      as (_ & _ & Hp & _).
    assert (Hjoin :
              join separator
                (flat_map (sectionOf (files env) v)
                   (extractPagePaths nav [])) = [] <->
              filter isProcessed
                (flat_map (pageEvents (files env))
                   (extractPagePaths nav [])) = []).
    { rewrite join_empty.
      - rewrite <- !length_zero_iff_nil, H1; tauto.
      - intros s Hs; apply in_flat_map in Hs; destruct Hs as (p & _ & Hs).
        now apply (sectionOf_truthy (files env) v p). }
    assert (Hschema :
              filter isProcessed (snd (readSchemaFiles (files env) v)) = []).
    { unfold readSchemaFiles, readSchema; cbv zeta.
      destruct (files env
                  (Path.join2 (js "../schema/" ++ v) (js "schema.ts")));
        destruct (files env
                    (Path.join2 (js "../schema/" ++ v) (js "schema.json")));
        reflexivity. }
    destruct includeFull.
    + destruct (writeError env (js "./mcp-spec-full.txt")) as [m|].
      * cbn [events exitStatus].
        rewrite !filter_app, Hschema, Hp; simpl filter.
        rewrite !app_nil_r.
        rewrite (concatenateSpec_basic cfg (files env) v nav Hv Hn).
        split.
        -- eexists; split; [reflexivity | exact Hjoin].
        -- split; [discriminate|].
           intros H; exfalso; apply H; split; [reflexivity | discriminate].
      * rewrite (full_events cfg (files env) v nav Hv Hn).
        rewrite !filter_app, Hschema, Hp; simpl filter.
        rewrite !app_nil_r.
        rewrite (concatenateSpec_full cfg (files env) v nav Hv Hn),
          (concatenateSpec_basic cfg (files env) v nav Hv Hn).
        split.
        -- eexists; split; [reflexivity | exact Hjoin].
        -- split; [intros _ [_ H]; now apply H | reflexivity].
    + rewrite Hp, (concatenateSpec_basic cfg (files env) v nav Hv Hn).
      split.
      * eexists; split; [reflexivity | exact Hjoin].
      * split; [intros _ [H _]; discriminate | reflexivity].
  - intros msg Hbase; rewrite Hbase; cbn [exitStatus written events].
    repeat split.
    apply in_or_app; right; now left.
Qed.

Lemma X11_empty_artifact_witness :
  (exists text,
      primaryArtifact
        (concatenateSpecIn true
           (Sample.fullReadOnly Sample.relativeConfig Sample.noFiles))
        = Some text /\
      (text = [] <->
       filter isProcessed
         (events
            (concatenateSpecIn true
               (Sample.fullReadOnly Sample.relativeConfig Sample.noFiles)))
         = [])) /\
  (exitStatus
     (concatenateSpecIn true
        (Sample.fullReadOnly Sample.relativeConfig Sample.noFiles)) = 0%N <->
   ~ (true = true /\
      writeError (Sample.fullReadOnly Sample.relativeConfig Sample.noFiles)
        (js "./mcp-spec-full.txt") <> None)).
Proof.
  apply (proj1 (X11_empty_artifact true
                  (Sample.fullReadOnly Sample.relativeConfig Sample.noFiles)
                  Sample.relativeConfig (js "2025-06-18")
                  [Page Sample.lifecyclePage; Page Sample.toolsPage]
                  eq_refl eq_refl eq_refl)).
  vm_compute; reflexivity.
Defined.

(** X12.  The flag [--full] only adds to a run: the primary artifact is
    that of the run without it, the console of the run without it comes
    first, and a full artifact that is written starts with the primary
    artifact.  A run with the flag that ends with status 0 ends with
    status 0 without it, and the two statuses are equal when
    [./mcp-spec-full.txt] can be written.  Without the flag no full
    artifact is written. *)
Theorem X12_full_extends_basic :
  forall env : Environment,
    primaryArtifact (concatenateSpecIn true env) =
      primaryArtifact (concatenateSpecIn false env) /\
    fullArtifact (concatenateSpecIn false env) = None /\
    (exists more,
        events (concatenateSpecIn true env) =
        events (concatenateSpecIn false env) ++ more) /\
    (forall text,
        fullArtifact (concatenateSpecIn true env) = Some text ->
        exists base rest,
          primaryArtifact (concatenateSpecIn true env) = Some base /\
          text = base ++ rest) /\
    (exitStatus (concatenateSpecIn true env) = 0%N ->
     exitStatus (concatenateSpecIn false env) = 0%N) /\
    (writeError env (js "./mcp-spec-full.txt") = None ->
     exitStatus (concatenateSpecIn true env) =
     exitStatus (concatenateSpecIn false env)).
Proof.
  intros env.
  destruct (docsJson env) as [cfg|msg] eqn:Hload.
  - assert (Hcases :
              (exists e, forall b, concatenateSpecIn b env = abort e) \/
              (exists v nav, findLatestSpecVersion cfg = Ok v /\
                             getLatestSpecNavigation cfg = Ok nav)).
    { destruct (findLatestSpecVersion cfg) as [v|e] eqn:Hv.
      - destruct (getLatestSpecNavigation cfg) as [nav|e] eqn:Hn.
        + right; exists v, nav; auto.
        + left; exists e; intros b.
          apply (concatenateSpecIn_throws env cfg Hload).
          right; exists v; auto.
      - left; exists e; intros b.
        apply (concatenateSpecIn_throws env cfg Hload); now left. }
    destruct Hcases as [[e Hab] | (v & nav & Hv & Hn)].
    + rewrite !Hab; repeat split; try discriminate.
      exists []; now rewrite app_nil_r.
    + rewrite !(concatenateSpecIn_selected env cfg Hload v nav Hv Hn).
      destruct (writeError env (js "./mcp-spec.txt")) as [m|].
      * repeat split; try discriminate.
        exists []; now rewrite app_nil_r.
      * destruct (writeError env (js "./mcp-spec-full.txt")) as [m|].
        -- rewrite (concatenateSpec_basic cfg (files env) v nav Hv Hn).
           repeat split; try discriminate.
           eexists; reflexivity.
        -- rewrite (full_events cfg (files env) v nav Hv Hn).
           rewrite (concatenateSpec_full cfg (files env) v nav Hv Hn),
             (concatenateSpec_basic cfg (files env) v nav Hv Hn).
           repeat split.
           ++ eexists; reflexivity.
           ++ intros text H; cbn [fullArtifact written app] in H.
              rewrite join_cons in H; injection H as <-.
              eexists; eexists; split; reflexivity.
  - unfold concatenateSpecIn; rewrite Hload; repeat split;
      try discriminate.
    exists []; reflexivity.
Qed.

(** X14.  With [--full], the configuration loaded, the version and the
    pages selected, both output files writable and no schema text to embed
    (each schema file is missing, unreadable or empty), the run ends with
    status 0 and the full artifact equals the primary artifact.  An empty
    [schema.ts] is reported as found although nothing of it is embedded;
    an unreadable one is reported with a warning. *)
Theorem X14_full_without_schemas :
  forall (env : Environment) (cfg : DocsConfig) (v : jsstring)
         (nav : list NavigationItem),
    docsJson env = Loaded cfg ->
    findLatestSpecVersion cfg = Ok v ->
    getLatestSpecNavigation cfg = Ok nav ->
    writeError env (js "./mcp-spec.txt") = None ->
    writeError env (js "./mcp-spec-full.txt") = None ->
    (forall t, files env (schemaPath v (js "schema.ts")) = Contents t ->
               t = []) ->
    (forall t, files env (schemaPath v (js "schema.json")) = Contents t ->
               t = []) ->
    exitStatus (concatenateSpecIn true env) = 0%N /\
    fullArtifact (concatenateSpecIn true env) =
      primaryArtifact (concatenateSpecIn true env) /\
    (files env (schemaPath v (js "schema.ts")) = Contents [] ->
     In (LogLevel, FoundSchema (js "schema.ts") v)
        (events (concatenateSpecIn true env))) /\
    (unreadable (files env) (schemaPath v (js "schema.ts")) ->
     In (WarnLevel, CouldNotFindSchema (js "schema.ts") v)
        (events (concatenateSpecIn true env))).
Proof.
  intros env cfg v nav Hload Hv Hn Hbase Hfull Hts Hjson.
  rewrite (concatenateSpecIn_writable env cfg Hload true Hbase)
    by (intros _; exact Hfull).
  rewrite (full_events cfg (files env) v nav Hv Hn).
  rewrite (concatenateSpec_full cfg (files env) v nav Hv Hn),
    (concatenateSpec_basic cfg (files env) v nav Hv Hn).
  unfold readSchemaFiles, readSchema, unreadable; cbv zeta.
  unfold schemaPath in *.
  split; [reflexivity|]; split; [|split].
  - cbn [fullArtifact primaryArtifact written app].
    destruct (files env (Path.join2 (js "../schema/" ++ v) (js "schema.ts")))
      as [t1| |] eqn:H1;
      destruct (files env
                  (Path.join2 (js "../schema/" ++ v) (js "schema.json")))
      as [t2| |] eqn:H2;
      try rewrite (Hts t1 eq_refl); try rewrite (Hjson t2 eq_refl);
      reflexivity.
  - intros H; rewrite H.
    apply in_or_app; right; apply in_or_app; left; now left.
  - intros H.
    destruct (files env (Path.join2 (js "../schema/" ++ v) (js "schema.ts")))
      as [t1| |] eqn:H1; [now destruct (H t1)| |];
      apply in_or_app; right; apply in_or_app; left; now left.
Qed.

Lemma X14_full_without_schemas_witness :
  exitStatus
    (concatenateSpecIn true
       (Sample.healthy Sample.relativeConfig Sample.toolsOnly)) = 0%N /\
  fullArtifact
    (concatenateSpecIn true
       (Sample.healthy Sample.relativeConfig Sample.toolsOnly)) =
    primaryArtifact
      (concatenateSpecIn true
         (Sample.healthy Sample.relativeConfig Sample.toolsOnly)).
Proof.
  destruct (X14_full_without_schemas
              (Sample.healthy Sample.relativeConfig Sample.toolsOnly)
              Sample.relativeConfig (js "2025-06-18")
              [Page Sample.lifecyclePage; Page Sample.toolsPage])
    as (H0 & Hf & _).
  - reflexivity.
  - vm_compute; reflexivity.
  - vm_compute; reflexivity.
  - reflexivity.
  - reflexivity.
  - vm_compute; discriminate.
  - vm_compute; discriminate.
  - split; [exact H0 | exact Hf].
Defined.
